(** * gitlab_runner_register: the reconciliation loop of the Ansible module

    A shallow embedding of [gitlab_runner_register.py].  The module is a
    Python class [Runner] whose methods shell out to the [gitlab-runner]
    binary, read and overwrite [/etc/gitlab-runner/config.toml], and
    stop through [module.exit_json] / [module.fail_json].

    - Python values that come out of a TOML document are [pyval];
      subscripting and comparison follow Python, including the
      exceptions they raise.
    - Methods of [Runner] are computations in the monad [M]: they
      thread a [Machine] (the object, the file system, the trace of
      external events) and either return or halt.
    - The collaborators that are not part of the module (the binary,
      the TOML library, [to_text], [mkstemp]) are the fields of a
      [Host]. *)

From Stdlib Require Import ZArith String List Bool Floats.PrimFloat.
From stdpp Require Import gmap strings list fin_maps.

Set Warnings "-register-all".
Open Scope string_scope.
Open Scope list_scope.
Open Scope Z_scope.

(** ** Python values *)

(** What [toml.load] can put in a document: strings, integers, floats,
    booleans, date-times, arrays and tables.  Tables are Python dicts
    with string keys. *)
Inductive pyval :=
| PStr (s : string)
| PInt (z : Z)
| PFloat (f : float)
| PBool (b : bool)
| PDatetime (iso : string)
| PList (l : list pyval)
| PDict (d : gmap string pyval).

(** Uncaught Python exceptions the module can meet. *)
Inductive exn := IndexError | KeyError | TypeError | TomlDecodeError | FileNotFoundError.

(** The result of evaluating a Python expression. *)
Inductive pyres (A : Type) :=
| Val (a : A)
| Exc (e : exn).
Arguments Val {A} a.
Arguments Exc {A} e.

#[global] Instance pyres_ret : MRet pyres := fun _ a => Val a.
#[global] Instance pyres_bind : MBind pyres := fun _ _ f r =>
  match r with Val a => f a | Exc e => Exc e end.

(** [bool(v)] *)
Definition truthy (v : pyval) : bool :=
  match v with
  | PStr s => negb (String.eqb s "")
  | PInt z => negb (Z.eqb z 0)
  | PFloat f => negb (PrimFloat.eqb f 0%float)
  | PBool b => b
  | PDatetime _ => true
  | PList l => match l with [] => false | _ :: _ => true end
  | PDict d => negb (bool_decide (d = ∅))
  end.

(** [v[i]] for an integer [i >= 0]. A dict of string keys has no key [i]. *)
Definition getitem_int (v : pyval) (i : nat) : pyres pyval :=
  match v with
  | PList l => match l !! i with Some x => Val x | None => Exc IndexError end
  | PStr s => match String.get i s with
              | Some c => Val (PStr (String c EmptyString))
              | None => Exc IndexError
              end
  | PDict _ => Exc KeyError
  | PInt _ | PFloat _ | PBool _ | PDatetime _ => Exc TypeError
  end.

(** [v[k]] for a string [k]. *)
Definition getitem_str (v : pyval) (k : string) : pyres pyval :=
  match v with
  | PDict d => match d !! k with Some x => Val x | None => Exc KeyError end
  | _ => Exc TypeError
  end.

(** [v != s] where [s] is a [str]: only an equal string is equal to it. *)
Definition ne_str (v : pyval) (s : string) : bool :=
  match v with
  | PStr s' => negb (String.eqb s' s)
  | _ => true
  end.

(** [re.search(pat, s, re.MULTILINE)] for the two patterns of the
    module, which are plain words: a substring test. *)
Fixpoint re_search (pat s : string) : bool :=
  String.prefix pat s ||
  match s with
  | EmptyString => false
  | String _ s' => re_search pat s'
  end.

(** ** The module's constants and state symbols *)

Definition RUNNER_CONFIG : string := "/etc/gitlab-runner/config.toml".
Definition RUNNER_ID : string := "/etc/gitlab-runner/.runner_system_id".

Inductive RunnerState :=
| REREGISTERED
| REGISTERED
| UNREGISTERED
| TOKEN_MISMATCH
| NAME_MISMATCH.

(** [RunnerState.X.value] *)
Definition value (s : RunnerState) : string :=
  match s with
  | REREGISTERED => "Reregistered"
  | REGISTERED => "Registered"
  | UNREGISTERED => "Unregistered"
  | TOKEN_MISMATCH => "Token Mismatch"
  | NAME_MISMATCH => "Runner Name Mismatch"
  end.

(** ** The [Runner] object *)

(** The attributes [__init__] sets.  The first ten are copies of the
    module parameters, typed as the argument spec types them; an option
    is [None] where Python has [None]. *)
Record Runner := {
  state : string;
  api_url : string;
  token : string;
  name : string;
  executor : option string;
  default_image : option string;
  environ_vars : option (gmap string pyval);
  global_params : option (gmap string pyval);
  template_file : option string;
  recreate : bool;
  warnings : list string;
  current_name : option pyval;
  command_results : gmap string pyval;
  bin : string }.

Definition set_warnings (w : list string) (r : Runner) : Runner :=
  {| state := state r; api_url := api_url r; token := token r; name := name r;
     executor := executor r; default_image := default_image r;
     environ_vars := environ_vars r; global_params := global_params r;
     template_file := template_file r; recreate := recreate r;
     warnings := w; current_name := current_name r;
     command_results := command_results r; bin := bin r |}.

Definition set_current_name (n : option pyval) (r : Runner) : Runner :=
  {| state := state r; api_url := api_url r; token := token r; name := name r;
     executor := executor r; default_image := default_image r;
     environ_vars := environ_vars r; global_params := global_params r;
     template_file := template_file r; recreate := recreate r;
     warnings := warnings r; current_name := n;
     command_results := command_results r; bin := bin r |}.

Definition set_command_results (c : gmap string pyval) (r : Runner) : Runner :=
  {| state := state r; api_url := api_url r; token := token r; name := name r;
     executor := executor r; default_image := default_image r;
     environ_vars := environ_vars r; global_params := global_params r;
     template_file := template_file r; recreate := recreate r;
     warnings := warnings r; current_name := current_name r;
     command_results := c; bin := bin r |}.

(** ** The outside world *)

(** What the module does to the outside, in the order it does it. *)
Inductive event :=
| RunCommand (cmd : list pyval) (environ_update : option (gmap string string))
| OsStat (path : string)
| TomlLoad (path : string)
| Mkstemp (dir path : string)
| TomlDump (o : gmap string pyval) (path : string)
| AtomicMove (src dest : string).

(** The collaborators the module calls but does not define. *)
Record Host := {
  (** the [gitlab-runner] binary under [module.run_command]: from the
      command line, the environment update and the files it finds, the
      exit code, stdout, stderr, and the files it leaves *)
  run_command : list pyval -> option (gmap string string) -> gmap string string ->
                Z * string * string * gmap string string;
  (** [module.get_bin_path(name, required=True)]: the path, or the
      message it fails with *)
  get_bin_path : string -> string + string;
  (** [toml.loads]; [None] is [TomlDecodeError] *)
  toml_loads : string -> option (gmap string pyval);
  (** [toml.dumps] *)
  toml_dumps : gmap string pyval -> string;
  (** [to_text] of ansible's text converters *)
  to_text : pyval -> string;
  (** the name [tempfile.mkstemp(dir=d)] picks, given the files present *)
  mkstemp : string -> gmap string string -> string;
  (** [module.tmpdir] *)
  tmpdir : string;
  (** whether [import toml] succeeded, and the traceback kept when it
      did not *)
  HAS_TOML : bool;
  TOML_IMP_ERR : string;
  (** [missing_required_lib] of ansible's basic module utilities *)
  missing_required_lib : string -> string }.

(** The object, the files (path to content) and the events so far. *)
Record Machine := {
  self : Runner;
  fs : gmap string string;
  trace : list event }.

(** How a run of the module stops: [exit_json] or [fail_json] with
    their keyword arguments, or an exception nobody catches. *)
Inductive halt :=
| ExitJson (kwargs : gmap string pyval)
| FailJson (kwargs : gmap string pyval)
| Uncaught (e : exn).

Inductive res (A : Type) :=
| Ret (a : A)
| Halt (h : halt).
Arguments Ret {A} a.
Arguments Halt {A} h.

(** ** The monad of methods *)

Definition M (A : Type) : Type := Machine -> res A * Machine.

#[global] Instance M_ret : MRet M := fun _ a m => (Ret a, m).
#[global] Instance M_bind : MBind M := fun _ _ f c m =>
  match c m with
  | (Ret a, m') => f a m'
  | (Halt h, m') => (Halt h, m')
  end.

Definition get_self : M Runner := fun m => (Ret (self m), m).

Definition modify_self (f : Runner -> Runner) : M unit := fun m =>
  (Ret tt, {| self := f (self m); fs := fs m; trace := trace m |}).

Definition get_fs : M (gmap string string) := fun m => (Ret (fs m), m).

Definition put_fs (d : gmap string string) : M unit := fun m =>
  (Ret tt, {| self := self m; fs := d; trace := trace m |}).

Definition emit (e : event) : M unit := fun m =>
  (Ret tt, {| self := self m; fs := fs m; trace := trace m ++ [e] |}).

Definition stop {A} (h : halt) : M A := fun m => (Halt h, m).

Definition exit_json {A} (kwargs : gmap string pyval) : M A := stop (ExitJson kwargs).
Definition fail_json {A} (kwargs : gmap string pyval) : M A := stop (FailJson kwargs).
Definition raise {A} (e : exn) : M A := stop (Uncaught e).

#[global] Instance RunnerState_eq_dec : EqDecision RunnerState.
Proof. solve_decision. Defined.

(** ** The methods of [Runner] *)

Section Methods.

Context (host : Host).

(** [self.module.run_command(cmd, environ_update=env)]: the binary
    runs on the current files; the call is recorded. *)
Definition module_run_command (cmd : list pyval)
    (env : option (gmap string string)) : M (Z * string * string) := fun m =>
  match run_command host cmd env (fs m) with
  | (rc, stdout, stderr, fs') =>
      (Ret (rc, stdout, stderr),
       {| self := self m; fs := fs'; trace := trace m ++ [RunCommand cmd env] |})
  end.

(** [os.stat(path)] under [try ... except FileNotFoundError]: whether
    the path exists. *)
Definition os_stat (path : string) : M bool :=
  emit (OsStat path);;
  d ← get_fs;
  mret (bool_decide (is_Some (d !! path))).

(** [load_config_content]: [toml.load(RUNNER_CONFIG)].  A document the
    parser rejects raises; nothing here catches it. *)
Definition load_config_content : M (gmap string pyval) :=
  emit (TomlLoad RUNNER_CONFIG);;
  d ← get_fs;
  match d !! RUNNER_CONFIG with
  | None => raise FileNotFoundError
  | Some text =>
      match toml_loads host text with
      | None => raise TomlDecodeError
      | Some config => mret config
      end
  end.

(** [make_start_config] *)
Definition make_start_config : M unit :=
  r ← get_self;
  match global_params r with
  | Some gp =>
      if truthy (PDict gp) then
        d ← get_fs;
        let tmpfile := mkstemp host (tmpdir host) d in
        emit (Mkstemp (tmpdir host) tmpfile);;
        put_fs (<[tmpfile := ""]> d);;
        emit (TomlDump gp tmpfile);;
        put_fs (<[tmpfile := toml_dumps host gp]> d);;
        emit (AtomicMove tmpfile RUNNER_CONFIG);;
        put_fs (<[RUNNER_CONFIG := toml_dumps host gp]> (delete tmpfile d))
      else mret tt
  | None => mret tt
  end.

(** [verify_config_exists] *)
Definition verify_config_exists : M bool :=
  id_exists ← os_stat RUNNER_ID;
  (if (id_exists : bool) then mret tt : M unit
   else fail_json {[ "msg" := PStr "Runner didn't initialize it's runner_id." ]});;
  os_stat RUNNER_CONFIG.

(** [config["runners"][0]], then its ["name"] and ["token"], in the
    order the [try] block evaluates them. *)
Definition first_runner (config : gmap string pyval) : pyres (pyval * pyval) :=
  runners ← getitem_str (PDict config) "runners";
  runner_section ← getitem_int runners 0;
  runner_name ← getitem_str runner_section "name";
  runner_token ← getitem_str runner_section "token";
  mret (runner_name, runner_token).

(** [get_state] *)
Definition get_state (config : gmap string pyval) : M RunnerState :=
  match first_runner config with
  | Exc IndexError | Exc KeyError => mret UNREGISTERED
  | Exc e => raise e
  | Val (runner_name, runner_token) =>
      r ← get_self;
      if ne_str runner_token (token r) then mret TOKEN_MISMATCH
      else
        (if ne_str runner_name (name r) then
           let miss_state := value NAME_MISMATCH in
           modify_self (fun r => set_warnings
             (warnings r ++ [miss_state +:+ ". Perhaps re-registration required."]) r);;
           modify_self (set_current_name (Some runner_name))
         else mret tt : M unit);;
        mret REGISTERED
  end.

(** The [--flag value] pair a truthy optional parameter adds. *)
Definition flag_if (flag : string) (o : option string) : list pyval :=
  match o with
  | Some v => if truthy (PStr v) then [PStr flag; PStr v] else []
  | None => []
  end.

(** The command line [register_runner] builds. *)
Definition register_cmd (r : Runner) : list pyval :=
  [PStr (bin r); PStr "register"; PStr "--non-interactive"]
  ++ [PStr "--url"; PStr (api_url r)]
  ++ [PStr "--token"; PStr (token r)]
  ++ [PStr "--name"; PStr (name r)]
  ++ flag_if "--executor" (executor r)
  ++ flag_if "--docker-image" (default_image r)
  ++ flag_if "--template-config" (template_file r).

(** The [environment] [register_runner] prepares. *)
Definition register_environment (r : Runner) : option (gmap string string) :=
  match environ_vars r with
  | Some ev => if truthy (PDict ev) then Some (to_text host <$> ev) else None
  | None => None
  end.

(** [register_runner] *)
Definition register_runner : M unit :=
  r ← get_self;
  let cmd := register_cmd r in
  let environment := register_environment r in
  '(rc, stdout, stderr) ← module_run_command cmd environment;
  if negb (rc =? 0) then
    fail_json {[ "msg" := PStr "Error while registering runner";
                 "stdout" := PStr stdout; "stderr" := PStr stderr ]}
  else mret tt.

(** The [name] [unregister_runner] passes: the desired name, replaced
    by [current_name] when that is truthy. *)
Definition unregister_name (r : Runner) : pyval :=
  let name := PStr (name r) in
  match current_name r with
  | Some n => if truthy n then n else name
  | None => name
  end.

(** The command line [unregister_runner] builds. *)
Definition unregister_cmd (r : Runner) : list pyval :=
  [PStr (bin r); PStr "unregister"] ++ [PStr "--name"; unregister_name r].

(** [unregister_runner] *)
Definition unregister_runner : M unit :=
  r ← get_self;
  let cmd := unregister_cmd r in
  '(rc, stdout, stderr) ← module_run_command cmd None;
  if negb (rc =? 0) then
    fail_json {[ "msg" := PStr "Error while unregistering runner";
                 "stdout" := PStr stdout; "stderr" := PStr stderr ]}
  else mret tt.

(** The command line [check_service] builds. *)
Definition status_cmd (r : Runner) : list pyval :=
  [PStr (bin r); PStr "status"].

(** [check_service] *)
Definition check_service : M unit :=
  r ← get_self;
  let cmd := status_cmd r in
  '(rc, stdout, stderr) ← module_run_command cmd None;
  (if negb (rc =? 0) then
     if re_search "Service has stopped" stderr then
       fail_json {[ "msg" := PStr "Service(systemd) not running." ]}
     else
       fail_json {[ "msg" := PStr "gitlab-runner can't get status";
                    "stdout" := PStr stdout; "stderr" := PStr stderr ]}
   else mret tt : M unit);;
  if negb (re_search "Service is running" stdout) then
    fail_json {[ "msg" := PStr "Gitlab-Runner service not running! Ensure service is up.";
                 "stdout" := PStr stdout; "stderr" := PStr stderr ]}
  else mret tt.

(** [do_disable] *)
Definition do_disable : M unit := unregister_runner.

(** [do_enable] *)
Definition do_enable : M unit :=
  make_start_config;;
  register_runner.

(** [do_reenable] *)
Definition do_reenable : M unit :=
  unregister_runner;;
  do_enable.

(** [self.command_results[k] = v] *)
Definition set_result (k : string) (v : pyval) : M unit :=
  modify_self (fun r => set_command_results (<[k := v]> (command_results r)) r).

(** [act], first part: the service check and the computation of
    [state_before]. *)
Definition act_observe : M RunnerState :=
  check_service;;
  config_exists ← verify_config_exists;
  if (config_exists : bool) then
    config_content ← load_config_content;
    get_state config_content
  else mret UNREGISTERED.

(** [act], second part: the branches on [self.state] and
    [state_before]; the result is [state_after]. *)
Definition act_transition (state_before : RunnerState) : M (option RunnerState) :=
  r ← get_self;
  if String.eqb (state r) "present" then
    if decide (state_before = UNREGISTERED) then
      do_enable;;
      set_result "msg" (PStr "Init registering Runner");;
      mret (Some REGISTERED)
    else if decide (state_before = TOKEN_MISMATCH) then
      do_reenable;;
      set_result "msg" (PStr "Reregistering Runner due to Token mismatch");;
      mret (Some REREGISTERED)
    else if decide (state_before = REGISTERED) then
      if recreate r then
        do_reenable;;
        set_result "msg" (PStr "Force reregistering Runner due to recreate option");;
        mret (Some REREGISTERED)
      else mret None
    else mret None
  else if String.eqb (state r) "absent" then
    if decide (state_before = REGISTERED) then
      do_disable;;
      set_result "msg" (PStr "Unregistering Runner");;
      mret (Some UNREGISTERED)
    else mret None
  else mret None.

(** [act], last part: filling [command_results] and [exit_json]. *)
Definition act_report (state_before : RunnerState)
    (state_after : option RunnerState) : M unit :=
  match state_after with
  | Some after => set_result "runner_state" (PStr (value after))
  | None => set_result "runner_state" (PStr (value state_before))
  end;;
  r ← get_self;
  match warnings r with
  | _ :: _ => set_result "warnings" (PList (PStr <$> warnings r))
  | [] => mret tt : M unit
  end;;
  r ← get_self;
  match command_results r !! "runner_state" with
  | None => raise KeyError : M unit
  | Some runner_state =>
      set_result "changed" (PBool (ne_str runner_state (value state_before)))
  end;;
  r ← get_self;
  exit_json (command_results r).

(** [act] *)
Definition act : M unit :=
  state_before ← act_observe;
  state_after ← act_transition state_before;
  act_report state_before state_after.

End Methods.

(** ** The argument spec and the module's entry point *)

(** [get_default_globals] *)
Definition get_default_globals : gmap string pyval :=
  {[ "concurrent" := PInt 1;
     "check_interval" := PInt 0;
     "connection_max_age" := PStr "15m0s";
     "shutdown_timeout" := PInt 0;
     "session_server" := PDict {[ "session_timeout" := PInt 1800 ]} ]}.

(** One entry of an argument spec: the keys the module uses. *)
Record option_spec := {
  spec_required : bool;
  spec_type : option string;
  spec_choices : option (list string);
  spec_default : option pyval;
  spec_no_log : bool }.

(** [make_argument_spec] *)
Definition make_argument_spec : list (string * option_spec) :=
  [ ("api_url", {| spec_required := true; spec_type := Some "str"; spec_choices := None;
                   spec_default := None; spec_no_log := false |});
    ("state", {| spec_required := false; spec_type := None;
                 spec_choices := Some ["present"; "absent"];
                 spec_default := Some (PStr "present"); spec_no_log := false |});
    ("token", {| spec_required := true; spec_type := Some "str"; spec_choices := None;
                 spec_default := None; spec_no_log := true |});
    ("name", {| spec_required := true; spec_type := Some "str"; spec_choices := None;
                spec_default := None; spec_no_log := false |});
    ("executor", {| spec_required := false; spec_type := Some "str"; spec_choices := None;
                    spec_default := None; spec_no_log := false |});
    ("default_image", {| spec_required := false; spec_type := Some "str";
                         spec_choices := None; spec_default := None;
                         spec_no_log := false |});
    ("global_params", {| spec_required := false; spec_type := Some "dict";
                         spec_choices := None;
                         spec_default := Some (PDict get_default_globals);
                         spec_no_log := false |});
    ("environ_vars", {| spec_required := false; spec_type := Some "dict";
                        spec_choices := None; spec_default := None;
                        spec_no_log := false |});
    ("template_file", {| spec_required := false; spec_type := Some "str";
                         spec_choices := None; spec_default := None;
                         spec_no_log := false |});
    ("recreate", {| spec_required := false; spec_type := Some "bool";
                    spec_choices := None; spec_default := Some (PBool false);
                    spec_no_log := false |}) ].

(** The [required_one_of] groups [setup_module_object] passes. *)
Definition required_one_of : list (list string) :=
  [ ["executor"; "template_file"; "environ_vars"] ].

(** The options a task gives the module, after the framework has brought
    each to the type of its spec entry.  [None] is an option the task
    leaves out. *)
Module args.
Record t := {
  api_url : option string;
  state : option string;
  token : option string;
  name : option string;
  executor : option string;
  default_image : option string;
  global_params : option (gmap string pyval);
  environ_vars : option (gmap string pyval);
  template_file : option string;
  recreate : option bool }.

(** Whether the task gives option [k]. *)
Definition supplied (a : t) (k : string) : bool :=
  if String.eqb k "api_url" then bool_decide (is_Some (api_url a))
  else if String.eqb k "state" then bool_decide (is_Some (state a))
  else if String.eqb k "token" then bool_decide (is_Some (token a))
  else if String.eqb k "name" then bool_decide (is_Some (name a))
  else if String.eqb k "executor" then bool_decide (is_Some (executor a))
  else if String.eqb k "default_image" then bool_decide (is_Some (default_image a))
  else if String.eqb k "global_params" then bool_decide (is_Some (global_params a))
  else if String.eqb k "environ_vars" then bool_decide (is_Some (environ_vars a))
  else if String.eqb k "template_file" then bool_decide (is_Some (template_file a))
  else if String.eqb k "recreate" then bool_decide (is_Some (recreate a))
  else false.
End args.

(** [module.params]: what the framework hands to [Runner.__init__]. *)
Module params.
Record t := {
  api_url : string;
  state : string;
  token : string;
  name : string;
  executor : option string;
  default_image : option string;
  global_params : option (gmap string pyval);
  environ_vars : option (gmap string pyval);
  template_file : option string;
  recreate : bool }.
End params.

Definition as_str (v : pyval) : option string :=
  match v with PStr s => Some s | _ => None end.
Definition as_dict (v : pyval) : option (gmap string pyval) :=
  match v with PDict d => Some d | _ => None end.
Definition as_bool (v : pyval) : option bool :=
  match v with PBool b => Some b | _ => None end.

(** The framework's rule for an option: the task's value when it gives
    one, else the [default] of the spec entry, else [None]. *)
Definition with_default {A} (spec : list (string * option_spec))
    (proj : pyval -> option A) (k : string) (given : option A) : option A :=
  match given with
  | Some x => Some x
  | None =>
      entry ← (list_to_map spec : gmap string option_spec) !! k;
      d ← spec_default entry;
      proj d
  end.

(** The framework's checks on what the task gives: every [required]
    option, a value among the [choices], one option of every
    [required_one_of] group. *)
Definition check_required (spec : list (string * option_spec)) (a : args.t) : bool :=
  forallb (fun e => implb (spec_required (snd e)) (args.supplied a (fst e))) spec.

Definition check_choices (spec : list (string * option_spec))
    (k : string) (v : string) : bool :=
  match (list_to_map spec : gmap string option_spec) !! k with
  | Some entry =>
      match spec_choices entry with
      | Some cs => existsb (String.eqb v) cs
      | None => true
      end
  | None => true
  end.

Definition check_required_one_of (groups : list (list string)) (a : args.t) : bool :=
  forallb (fun g => existsb (args.supplied a) g) groups.

(** [setup_module_object]: the [AnsibleModule] built from the argument
    spec.  [None] when the framework rejects the task's options (it
    fails the task itself; the module's code does not run). *)
Definition setup_module_object (a : args.t) : option params.t :=
  let spec := make_argument_spec in
  if negb (check_required spec a && check_required_one_of required_one_of a) then None
  else
    api_url ← args.api_url a;
    state ← with_default spec as_str "state" (args.state a);
    token ← args.token a;
    name ← args.name a;
    recreate ← with_default spec as_bool "recreate" (args.recreate a);
    if negb (check_choices spec "state" state) then None
    else Some {|
      params.api_url := api_url;
      params.state := state;
      params.token := token;
      params.name := name;
      params.executor := with_default spec as_str "executor" (args.executor a);
      params.default_image :=
        with_default spec as_str "default_image" (args.default_image a);
      params.global_params :=
        with_default spec as_dict "global_params" (args.global_params a);
      params.environ_vars :=
        with_default spec as_dict "environ_vars" (args.environ_vars a);
      params.template_file :=
        with_default spec as_str "template_file" (args.template_file a);
      params.recreate := recreate |}.

(** [Runner.get_binary], as [__init__] calls it. *)
Definition get_binary (host : Host) : string + string :=
  get_bin_path host "gitlab-runner".

(** [Runner.__init__]: the object, or the failure of [get_bin_path]. *)
Definition Runner_init (host : Host) (p : params.t) : halt + Runner :=
  match get_binary host with
  | inl msg => inl (FailJson {[ "msg" := PStr msg ]})
  | inr path => inr {|
      state := params.state p;
      api_url := params.api_url p;
      token := params.token p;
      name := params.name p;
      executor := params.executor p;
      default_image := params.default_image p;
      environ_vars := params.environ_vars p;
      global_params := params.global_params p;
      template_file := params.template_file p;
      recreate := params.recreate p;
      warnings := [];
      current_name := None;
      command_results := ∅;
      bin := path |}
  end.

(** The machine a fresh object starts on. *)
Definition boot (r : Runner) (files : gmap string string) : Machine :=
  {| self := r; fs := files; trace := [] |}.

(** [main], on a module object the framework accepted: how the run
    ends, and the machine it leaves (none when the object was never
    built). *)
Definition main (host : Host) (p : params.t) (files : gmap string string)
    : res unit * option Machine :=
  if negb (HAS_TOML host) then
    (Halt (FailJson {[ "msg" := PStr (missing_required_lib host "toml");
                       "exception" := PStr (TOML_IMP_ERR host) ]}), None)
  else
    match Runner_init host p with
    | inl h => (Halt h, None)
    | inr gitlab_runner =>
        match act host (boot gitlab_runner files) with
        | (out, m) => (out, Some m)
        end
    end.

(** ** Reading a run *)

(** The two mutating invocations of the binary. *)
Inductive action := Register | Unregister.

(** Which action a recorded event is, judged by the sub-command. *)
Definition action_of (e : event) : option action :=
  match e with
  | RunCommand (_ :: PStr sub :: _) _ =>
      if String.eqb sub "register" then Some Register
      else if String.eqb sub "unregister" then Some Unregister
      else None
  | _ => None
  end.

Definition actions (tr : list event) : list action := omap action_of tr.

(** The recorded invocations that are actions. *)
Definition action_events (tr : list event) : list event :=
  List.filter (fun e => bool_decide (is_Some (action_of e))) tr.

(** The binary carries out every register and unregister it is asked. *)
Definition succeeds (host : Host) : Prop :=
  forall cmd env files,
    is_Some (action_of (RunCommand cmd env)) ->
    (run_command host cmd env files).1.1.1 = 0.

(** The status query, asked by [r] on [files], exits 0 saying the
    service runs, and leaves [files']. *)
Definition service_running (host : Host) (r : Runner)
    (files files' : gmap string string) : Prop :=
  exists stdout stderr,
    run_command host (status_cmd r) None files = (0, stdout, stderr, files') /\
    re_search "Service is running" stdout = true.

(** The configuration document exists in [files] and parses to [config]. *)
Definition document (host : Host) (files : gmap string string)
    (config : gmap string pyval) : Prop :=
  exists text, files !! RUNNER_CONFIG = Some text /\ toml_loads host text = Some config.

(** The events of a full observation, in order. *)
Definition observation_events (r : Runner) : list event :=
  [RunCommand (status_cmd r) None; OsStat RUNNER_ID; OsStat RUNNER_CONFIG;
   TomlLoad RUNNER_CONFIG].

(** The events of one seeding of [gp] on [files]. *)
Definition seed_events (host : Host) (gp : gmap string pyval)
    (files : gmap string string) : list event :=
  let tmpfile := mkstemp host (tmpdir host) files in
  [Mkstemp (tmpdir host) tmpfile; TomlDump gp tmpfile; AtomicMove tmpfile RUNNER_CONFIG].

(** The files one seeding of [gp] leaves. *)
Definition seeded (host : Host) (gp : gmap string pyval)
    (files : gmap string string) : gmap string string :=
  <[RUNNER_CONFIG := toml_dumps host gp]> (delete (mkstemp host (tmpdir host) files) files).

(** The machine after [host] has run [cmd]. *)
Definition after_command (host : Host) (cmd : list pyval)
    (env : option (gmap string string)) (m : Machine) : Machine :=
  {| self := self m;
     fs := (run_command host cmd env (fs m)).2;
     trace := trace m ++ [RunCommand cmd env] |}.

(** The machine after one more recorded event that changes no file. *)
Definition after_event (e : event) (m : Machine) : Machine :=
  {| self := self m; fs := fs m; trace := trace m ++ [e] |}.

(** The machine after one seeding of [gp]. *)
Definition after_seed (host : Host) (gp : gmap string pyval) (m : Machine) : Machine :=
  {| self := self m;
     fs := seeded host gp (fs m);
     trace := trace m ++ seed_events host gp (fs m) |}.

(** The machine [make_start_config] leaves. *)
Definition start_config (host : Host) (m : Machine) : Machine :=
  match global_params (self m) with
  | Some gp => if truthy (PDict gp) then after_seed host gp m else m
  | None => m
  end.

(** What [fail_json] reports when a command exits non-zero. *)
Definition command_failure (msg : string) (reply : Z * string * string)
    : gmap string pyval :=
  {[ "msg" := PStr msg; "stdout" := PStr reply.1.2; "stderr" := PStr reply.2 ]}.

(** The outcome of a step that fails on a non-zero exit code. *)
Definition checked (msg : string) (reply : Z * string * string) : res unit :=
  if reply.1.1 =? 0 then Ret tt else Halt (FailJson (command_failure msg reply)).

(** The keyword arguments [act] exits with, from the object as the
    transition left it. *)
Definition report (state_before : RunnerState) (state_after : option RunnerState)
    (r : Runner) : gmap string pyval :=
  let runner_state := value (default state_before state_after) in
  let c1 := <["runner_state" := PStr runner_state]> (command_results r) in
  let c2 := match warnings r with
            | [] => c1
            | _ :: _ => <["warnings" := PList (PStr <$> warnings r)]> c1
            end in
  <["changed" := PBool (negb (String.eqb runner_state (value state_before)))]> c2.

(** The machine after [self.command_results[k] = v]. *)
Definition after_result (k : string) (v : pyval) (m : Machine) : Machine :=
  {| self := set_command_results (<[k := v]> (command_results (self m))) (self m);
     fs := fs m; trace := trace m |}.

(** The name-mismatch advisory [get_state] records. *)
Definition name_mismatch_warning : string :=
  "Runner Name Mismatch. Perhaps re-registration required.".

(** The machine after [get_state] has noted that the name on record,
    [n], is not the desired one. *)
Definition name_noted (n : pyval) (m : Machine) : Machine :=
  {| self := set_current_name (Some n)
               (set_warnings (warnings (self m) ++ [name_mismatch_warning]) (self m));
     fs := fs m; trace := trace m |}.

(** The branch of [act] that fires for object [r] on [state_before]:
    the actions it performs, its [state_after] and its message; [None]
    when no branch assigns [state_after]. *)
Definition fired (r : Runner) (state_before : RunnerState)
    : option (list action * RunnerState * string) :=
  if String.eqb (state r) "present" then
    match state_before with
    | UNREGISTERED => Some ([Register], REGISTERED, "Init registering Runner")
    | TOKEN_MISMATCH =>
        Some ([Unregister; Register], REREGISTERED,
              "Reregistering Runner due to Token mismatch")
    | REGISTERED =>
        if recreate r then
          Some ([Unregister; Register], REREGISTERED,
                "Force reregistering Runner due to recreate option")
        else None
    | _ => None
    end
  else if String.eqb (state r) "absent" then
    match state_before with
    | REGISTERED => Some ([Unregister], UNREGISTERED, "Unregistering Runner")
    | _ => None
    end
  else None.

(** One action as the module carries it out: a registration is
    [do_enable], an unregistration is [unregister_runner]. *)
Definition perform (host : Host) (a : action) : M unit :=
  match a with
  | Register => do_enable host
  | Unregister => unregister_runner host
  end.

Fixpoint perform_all (host : Host) (acts : list action) : M unit :=
  match acts with
  | [] => mret tt
  | a :: rest => perform host a;; perform_all host rest
  end.

(** The four transitions [act] can fire: state before, state after,
    actions, message. *)
Definition transitions : list (RunnerState * RunnerState * list action * string) :=
  [ (UNREGISTERED, REGISTERED, [Register], "Init registering Runner");
    (TOKEN_MISMATCH, REREGISTERED, [Unregister; Register],
     "Reregistering Runner due to Token mismatch");
    (REGISTERED, REREGISTERED, [Unregister; Register],
     "Force reregistering Runner due to recreate option");
    (REGISTERED, UNREGISTERED, [Unregister], "Unregistering Runner") ].

(** The first agent entry of a document of the shape the service
    writes: [runners] is absent or an array, and the first element of
    the array, when there is one, is a table.  The outer [None] is a
    document of another shape. *)
Definition first_entry (config : gmap string pyval)
    : option (option (gmap string pyval)) :=
  match config !! "runners" with
  | None => Some None
  | Some (PList []) => Some None
  | Some (PList (PDict e :: _)) => Some (Some e)
  | Some _ => None
  end.

(** State observation as the specification words it (section 4.2): the
    observed state, and the observed name when it is captured. *)
Definition spec_observation (token name : string)
    (entry : option (gmap string pyval)) : RunnerState * option pyval :=
  match entry with
  | None => (UNREGISTERED, None)
  | Some e =>
      match e !! "name", e !! "token" with
      | Some n, Some t =>
          if ne_str t token then (TOKEN_MISMATCH, None)
          else if ne_str n name then (REGISTERED, Some n)
          else (REGISTERED, None)
      | _, _ => (UNREGISTERED, None)
      end
  end.

(** The transition table of the specification (section 4.6), read as a
    function: the actions to perform, in order, and the resulting state. *)
Definition spec_transition (target : string) (observed : RunnerState)
    (recreate : bool) : list action * RunnerState :=
  let present := String.eqb target "present" in
  match observed with
  | UNREGISTERED =>
      if present then ([Register], REGISTERED) else ([], UNREGISTERED)
  | TOKEN_MISMATCH =>
      if present then ([Unregister; Register], REREGISTERED) else ([], TOKEN_MISMATCH)
  | REGISTERED =>
      if present then
        if recreate then ([Unregister; Register], REREGISTERED) else ([], REGISTERED)
      else ([Unregister], UNREGISTERED)
  | other => ([], other)
  end.

(** ** A small host and a few documents to run the module on *)

Definition doc_of (name token : pyval) : gmap string pyval :=
  {[ "runners" := PList [PDict {[ "name" := name; "token" := token ]}] ]}.

(** Texts of configuration documents and what they parse to. *)
Definition sample_documents : list (string * gmap string pyval) :=
  [ ("concurrent = 1", {[ "concurrent" := PInt 1 ]});
    ("[[runners]] name = 'host1' token = 'glrt-1'",
     doc_of (PStr "host1") (PStr "glrt-1"));
    ("[[runners]] name = 'oldhost' token = 'glrt-1'",
     doc_of (PStr "oldhost") (PStr "glrt-1"));
    ("[[runners]] name = '' token = 'glrt-1'",
     doc_of (PStr "") (PStr "glrt-1"));
    ("[[runners]] name = 'host1' token = 'glrt-0'",
     doc_of (PStr "host1") (PStr "glrt-0")) ].

(** A host whose status query answers [status] and whose other
    commands exit 0 and leave the files alone. *)
Definition sample_host (status : Z * string * string) : Host := {|
  run_command := fun cmd env files =>
    match action_of (RunCommand cmd env) with
    | Some _ => (0, "", "", files)
    | None => (status, files)
    end;
  get_bin_path := fun _ => inr "/usr/bin/gitlab-runner";
  toml_loads := fun text =>
    (list_to_map sample_documents : gmap string (gmap string pyval)) !! text;
  toml_dumps := fun _ => "concurrent = 1";
  to_text := fun v => match v with PStr s => s | _ => "" end;
  mkstemp := fun dir _ => dir +:+ "/tmpq1w2e3";
  tmpdir := "/root/.ansible/tmp";
  HAS_TOML := true;
  TOML_IMP_ERR := "";
  missing_required_lib := fun lib => "Failed to import " +:+ lib |}.

Definition running : Z * string * string :=
  (0, "gitlab-runner: Service is running", "").

Definition stopped : Z * string * string :=
  (1, "", "gitlab-runner: Service has stopped").

(** The options of a plain registration task. *)
Definition sample_args : args.t := {|
  args.api_url := Some "https://gitlab.example.com";
  args.state := None;
  args.token := Some "glrt-1";
  args.name := Some "host1";
  args.executor := Some "docker";
  args.default_image := None;
  args.global_params := None;
  args.environ_vars := None;
  args.template_file := None;
  args.recreate := None |}.

Definition with_state (s : string) (a : args.t) : args.t := {|
  args.api_url := args.api_url a;
  args.state := Some s;
  args.token := args.token a;
  args.name := args.name a;
  args.executor := args.executor a;
  args.default_image := args.default_image a;
  args.global_params := args.global_params a;
  args.environ_vars := args.environ_vars a;
  args.template_file := args.template_file a;
  args.recreate := args.recreate a |}.

Definition with_recreate (b : bool) (a : args.t) : args.t := {|
  args.api_url := args.api_url a;
  args.state := args.state a;
  args.token := args.token a;
  args.name := args.name a;
  args.executor := args.executor a;
  args.default_image := args.default_image a;
  args.global_params := args.global_params a;
  args.environ_vars := args.environ_vars a;
  args.template_file := args.template_file a;
  args.recreate := Some b |}.

Definition with_global_params (g : gmap string pyval) (a : args.t) : args.t := {|
  args.api_url := args.api_url a;
  args.state := args.state a;
  args.token := args.token a;
  args.name := args.name a;
  args.executor := args.executor a;
  args.default_image := args.default_image a;
  args.global_params := Some g;
  args.environ_vars := args.environ_vars a;
  args.template_file := args.template_file a;
  args.recreate := args.recreate a |}.

(** The object [__init__] builds from [sample_args] on a sample host,
    with the desired target and the recreate flag left open. *)
Definition sample_runner (target : string) (again : bool) : Runner := {|
  state := target;
  api_url := "https://gitlab.example.com";
  token := "glrt-1";
  name := "host1";
  executor := Some "docker";
  default_image := None;
  environ_vars := None;
  global_params := Some get_default_globals;
  template_file := None;
  recreate := again;
  warnings := [];
  current_name := None;
  command_results := ∅;
  bin := "/usr/bin/gitlab-runner" |}.

(** [module.params] for [sample_args] with the target and the flag given. *)
Definition sample_params (target : string) (again : bool) : params.t := {|
  params.api_url := "https://gitlab.example.com";
  params.state := target;
  params.token := "glrt-1";
  params.name := "host1";
  params.executor := Some "docker";
  params.default_image := None;
  params.global_params := Some get_default_globals;
  params.environ_vars := None;
  params.template_file := None;
  params.recreate := again |}.

(** The same object and parameters for a task that gives an empty
    [global_params] mapping. *)
Definition bare_runner : Runner := {|
  state := "present";
  api_url := "https://gitlab.example.com";
  token := "glrt-1";
  name := "host1";
  executor := Some "docker";
  default_image := None;
  environ_vars := None;
  global_params := Some ∅;
  template_file := None;
  recreate := false;
  warnings := [];
  current_name := None;
  command_results := ∅;
  bin := "/usr/bin/gitlab-runner" |}.

Definition bare_params : params.t := {|
  params.api_url := "https://gitlab.example.com";
  params.state := "present";
  params.token := "glrt-1";
  params.name := "host1";
  params.executor := Some "docker";
  params.default_image := None;
  params.global_params := Some ∅;
  params.environ_vars := None;
  params.template_file := None;
  params.recreate := false |}.

(** Files of a host whose service has started: the identity marker,
    and the configuration document when [text] is given. *)
Definition sample_files (text : option string) : gmap string string :=
  match text with
  | Some t => {[ RUNNER_ID := "r_abcdef"; RUNNER_CONFIG := t ]}
  | None => {[ RUNNER_ID := "r_abcdef" ]}
  end.

(** The whole module on task options: the framework's setup, then
    [main].  [None] when the framework rejects the options. *)
Definition run_module (host : Host) (a : args.t) (files : gmap string string)
    : option (res unit * option Machine) :=
  p ← setup_module_object a;
  Some (main host p files).

(** ** More ways to read a run *)

(** [pat] occurs somewhere in [s]. *)
Definition occurs_in (pat s : string) : Prop :=
  exists pre post, s = pre +:+ pat +:+ post.

(** The module parameters an object carries, as [__init__] copied them. *)
Definition params_of (r : Runner) : params.t := {|
  params.api_url := api_url r;
  params.state := state r;
  params.token := token r;
  params.name := name r;
  params.executor := executor r;
  params.default_image := default_image r;
  params.global_params := global_params r;
  params.environ_vars := environ_vars r;
  params.template_file := template_file r;
  params.recreate := recreate r |}.

(** The events [make_start_config] records. *)
Definition is_seeding (e : event) : bool :=
  match e with
  | Mkstemp _ _ | TomlDump _ _ | AtomicMove _ _ => true
  | _ => false
  end.

(** The documents on which [get_state] raises: [runners] is there and is
    a number, a boolean, a date-time, a non-empty string, or an array
    whose first element is not a table. *)
Definition unusable_runners (config : gmap string pyval) : bool :=
  match config !! "runners" with
  | None => false
  | Some (PList []) => false
  | Some (PList (PDict _ :: _)) => false
  | Some (PList (_ :: _)) => true
  | Some (PStr s) => negb (String.eqb s "")
  | Some (PDict _) => false
  | Some (PInt _ | PFloat _ | PBool _ | PDatetime _) => true
  end.

(** Whether an optional string parameter adds its flag. *)
Definition given (o : option string) : bool :=
  match o with
  | Some s => negb (String.eqb s "")
  | None => false
  end.

(** An object whose task gives environment overrides and no executor. *)
Definition env_runner : Runner := {|
  state := "present";
  api_url := "https://gitlab.example.com";
  token := "glrt-1";
  name := "host1";
  executor := Some "";
  default_image := None;
  environ_vars := Some {[ "RUNNER_EXECUTOR" := PStr "docker";
                          "DOCKER_IMAGE" := PStr "alpine:latest" ]};
  global_params := Some {[ "concurrent" := PInt 1 ]};
  template_file := None;
  recreate := false;
  warnings := [];
  current_name := None;
  command_results := ∅;
  bin := "/usr/bin/gitlab-runner" |}.

(** A host like [sample_host] whose binary refuses every action. *)
Definition refusing_host : Host := {|
  run_command := fun cmd env files =>
    match action_of (RunCommand cmd env) with
    | Some _ => (1, "", "ERROR: refused", files)
    | None => (running, files)
    end;
  get_bin_path := get_bin_path (sample_host running);
  toml_loads := toml_loads (sample_host running);
  toml_dumps := toml_dumps (sample_host running);
  to_text := to_text (sample_host running);
  mkstemp := mkstemp (sample_host running);
  tmpdir := tmpdir (sample_host running);
  HAS_TOML := true;
  TOML_IMP_ERR := "";
  missing_required_lib := missing_required_lib (sample_host running) |}.

(** A host like [sample_host] whose registration writes the runner into
    the configuration document. *)
Definition writing_host : Host := {|
  run_command := fun cmd env files =>
    match action_of (RunCommand cmd env) with
    | Some Register =>
        (0, "", "",
         <[RUNNER_CONFIG := "[[runners]] name = 'host1' token = 'glrt-1'"]> files)
    | Some Unregister => (0, "", "", <[RUNNER_CONFIG := "concurrent = 1"]> files)
    | None => (running, files)
    end;
  get_bin_path := get_bin_path (sample_host running);
  toml_loads := toml_loads (sample_host running);
  toml_dumps := toml_dumps (sample_host running);
  to_text := to_text (sample_host running);
  mkstemp := mkstemp (sample_host running);
  tmpdir := tmpdir (sample_host running);
  HAS_TOML := true;
  TOML_IMP_ERR := "";
  missing_required_lib := missing_required_lib (sample_host running) |}.

(** * What the module guarantees *)

(** ** Running the monad *)

Lemma bind_ret {A B} (c : M A) (f : A -> M B) m a m' :
  c m = (Ret a, m') -> (c ≫= f) m = f a m'.
Proof. intros H. unfold mbind, M_bind. by rewrite H. Qed.

Lemma ne_str_true v s : ne_str v s = true <-> v <> PStr s.
Proof.
  destruct v; simpl; try (split; [congruence | done]).
  destruct (String.eqb_spec s0 s); simpl; split; congruence.
Qed.

Lemma ne_str_false v s : ne_str v s = false <-> v = PStr s.
Proof.
  destruct v; simpl; try (split; congruence).
  destruct (String.eqb_spec s0 s); simpl; split; congruence.
Qed.

(** Unfold the operations of [M] down to functions on machines. *)
Ltac munfold :=
  unfold mbind, M_bind, mret, M_ret, get_self, modify_self, get_fs, put_fs,
    emit, exit_json, fail_json, raise, stop in *.

(** ** Each method as an equation on machines *)

Section Steps.
Context (host : Host).

Lemma module_run_command_run cmd env m :
  module_run_command host cmd env m =
    (Ret (run_command host cmd env (fs m)).1, after_command host cmd env m).
Proof.
  unfold module_run_command, after_command.
  by destruct (run_command host cmd env (fs m)) as [[[rc out] err] fs'].
Qed.

Lemma os_stat_run path m :
  os_stat path m = (Ret (bool_decide (is_Some (fs m !! path))), after_event (OsStat path) m).
Proof. reflexivity. Qed.

Lemma register_runner_run m :
  register_runner host m =
    (checked "Error while registering runner"
       (run_command host (register_cmd (self m)) (register_environment host (self m)) (fs m)).1,
     after_command host (register_cmd (self m)) (register_environment host (self m)) m).
Proof.
  unfold register_runner. munfold. cbn.
  rewrite module_run_command_run. unfold checked, command_failure.
  destruct (run_command _ _ _ _) as [[[rc out] err] fs']. cbn.
  by destruct (rc =? 0).
Qed.

Lemma unregister_runner_run m :
  unregister_runner host m =
    (checked "Error while unregistering runner"
       (run_command host (unregister_cmd (self m)) None (fs m)).1,
     after_command host (unregister_cmd (self m)) None m).
Proof.
  unfold unregister_runner. munfold. cbn.
  rewrite module_run_command_run. unfold checked, command_failure.
  destruct (run_command _ _ _ _) as [[[rc out] err] fs']. cbn.
  by destruct (rc =? 0).
Qed.

Lemma make_start_config_run m :
  make_start_config host m = (Ret tt, start_config host m).
Proof.
  unfold make_start_config, start_config. munfold. cbn.
  destruct (global_params (self m)) as [gp|]; [|by destruct m].
  destruct (bool_decide (gp = ∅)); [by destruct m|].
  cbn. unfold after_seed, seed_events, seeded. cbn.
  by rewrite <- !app_assoc.
Qed.

Lemma check_service_run m :
  check_service host m =
    (let '(rc, stdout, stderr) := (run_command host (status_cmd (self m)) None (fs m)).1 in
     if negb (rc =? 0) then
       if re_search "Service has stopped" stderr then
         Halt (FailJson {[ "msg" := PStr "Service(systemd) not running." ]})
       else Halt (FailJson (command_failure "gitlab-runner can't get status"
                              (rc, stdout, stderr)))
     else if re_search "Service is running" stdout then Ret tt
     else Halt (FailJson (command_failure
                  "Gitlab-Runner service not running! Ensure service is up."
                  (rc, stdout, stderr))),
     after_command host (status_cmd (self m)) None m).
Proof.
  unfold check_service. munfold. cbn.
  rewrite module_run_command_run. unfold command_failure.
  destruct (run_command _ _ _ _) as [[[rc out] err] fs']. cbn.
  destruct (rc =? 0); cbn.
  - by destruct (re_search "Service is running" out).
  - by destruct (re_search "Service has stopped" err).
Qed.

Lemma verify_config_exists_run m :
  verify_config_exists m =
    if bool_decide (is_Some (fs m !! RUNNER_ID)) then
      (Ret (bool_decide (is_Some (fs m !! RUNNER_CONFIG))),
       after_event (OsStat RUNNER_CONFIG) (after_event (OsStat RUNNER_ID) m))
    else
      (Halt (FailJson {[ "msg" := PStr "Runner didn't initialize it's runner_id." ]}),
       after_event (OsStat RUNNER_ID) m).
Proof.
  unfold verify_config_exists. munfold. rewrite os_stat_run.
  destruct (bool_decide _); [|done].
  by rewrite os_stat_run.
Qed.

Lemma load_config_content_run m :
  load_config_content host m =
    (match fs m !! RUNNER_CONFIG with
     | None => Halt (Uncaught FileNotFoundError)
     | Some text =>
         match toml_loads host text with
         | None => Halt (Uncaught TomlDecodeError)
         | Some config => Ret config
         end
     end, after_event (TomlLoad RUNNER_CONFIG) m).
Proof.
  unfold load_config_content. munfold. cbn.
  destruct (fs m !! RUNNER_CONFIG) as [text|]; [|done].
  by destruct (toml_loads host text).
Qed.

End Steps.

(** ** The flow of [act] *)

Section Flow.
Context (host : Host).

Lemma first_runner_table config e rest :
  config !! "runners" = Some (PList (PDict e :: rest)) ->
  first_runner config =
    match e !! "name", e !! "token" with
    | Some n, Some t => Val (n, t)
    | _, _ => Exc KeyError
    end.
Proof.
  intros H. unfold first_runner. cbn. rewrite H. cbn.
  destruct (e !! "name"); cbn; [|done]. by destruct (e !! "token").
Qed.

Lemma get_state_run config m :
  get_state config m =
    match first_runner config with
    | Exc IndexError | Exc KeyError => (Ret UNREGISTERED, m)
    | Exc e => (Halt (Uncaught e), m)
    | Val (n, t) =>
        if ne_str t (token (self m)) then (Ret TOKEN_MISMATCH, m)
        else if ne_str n (name (self m)) then (Ret REGISTERED, name_noted n m)
        else (Ret REGISTERED, m)
    end.
Proof.
  unfold get_state.
  destruct (first_runner config) as [[n t]|[]]; try reflexivity.
  munfold. cbn.
  destruct (ne_str t (token (self m))); [done|].
  destruct (ne_str n (name (self m))); [|done].
  reflexivity.
Qed.

Lemma perform_register_run m :
  perform host Register m =
    (checked "Error while registering runner"
       (run_command host (register_cmd (self m)) (register_environment host (self m))
          (fs (start_config host m))).1,
     after_command host (register_cmd (self m)) (register_environment host (self m))
       (start_config host m)).
Proof.
  cbn. unfold do_enable. erewrite bind_ret by apply make_start_config_run.
  rewrite register_runner_run.
  assert (self (start_config host m) = self m) as ->; [|done].
  unfold start_config. destruct (global_params (self m)); [|done].
  by destruct (truthy _).
Qed.

Lemma perform_unregister_run m :
  perform host Unregister m =
    (checked "Error while unregistering runner"
       (run_command host (unregister_cmd (self m)) None (fs m)).1,
     after_command host (unregister_cmd (self m)) None m).
Proof. apply unregister_runner_run. Qed.

Lemma act_transition_fired before m :
  act_transition host before m =
    match fired (self m) before with
    | None => (Ret None, m)
    | Some (acts, after, msg) =>
        (perform_all host acts;; set_result "msg" (PStr msg);; mret (Some after)) m
    end.
Proof.
  unfold act_transition, fired. munfold. cbn.
  destruct (String.eqb (state (self m)) "present").
  - destruct before; repeat (case_decide; try discriminate);
      cbn [perform_all perform]; unfold do_reenable; munfold; try done.
    + destruct (recreate (self m)); [|done].
      cbn [perform_all perform]. munfold.
      destruct (unregister_runner host m) as [[[]|h] m1]; [|done].
      by destruct (do_enable host m1) as [[[]|h] m2].
    + by destruct (do_enable host m) as [[[]|h] m2].
    + destruct (unregister_runner host m) as [[[]|h] m1]; [|done].
      by destruct (do_enable host m1) as [[[]|h] m2].
  - destruct (String.eqb (state (self m)) "absent"); [|done].
    destruct before; repeat (case_decide; try discriminate);
      cbn [perform_all perform]; unfold do_disable; munfold; try done.
    by destruct (unregister_runner host m) as [[[]|h] m1].
Qed.

Lemma act_report_run before after m :
  act_report before after m =
    (Halt (ExitJson (report before after (self m))),
     {| self := set_command_results (report before after (self m)) (self m);
        fs := fs m; trace := trace m |}).
Proof.
  unfold act_report, report, set_result. munfold.
  destruct after as [after|]; cbn.
  - destruct (warnings (self m)) eqn:Hw; cbn; rewrite ?Hw; cbn.
    + rewrite lookup_insert_eq. done.
    + rewrite lookup_insert_ne by done. rewrite lookup_insert_eq. done.
  - destruct (warnings (self m)) eqn:Hw; cbn; rewrite ?Hw; cbn.
    + rewrite lookup_insert_eq. done.
    + rewrite lookup_insert_ne by done. rewrite lookup_insert_eq. done.
Qed.

End Flow.

(** ** Runs, whatever the binary answers *)

Section Runs.
Context (host : Host).

Lemma self_start_config m : self (start_config host m) = self m.
Proof.
  unfold start_config. destruct (global_params (self m)); [|done].
  by destruct (truthy _).
Qed.

Lemma actions_start_config m :
  actions (trace (start_config host m)) = actions (trace m).
Proof.
  unfold start_config. destruct (global_params (self m)); [|done].
  destruct (truthy _); [|done].
  unfold actions. cbn. rewrite omap_app. cbn. by rewrite app_nil_r.
Qed.

Lemma actions_snoc tr e :
  actions (tr ++ [e]) = actions tr ++ from_option (fun a => [a]) [] (action_of e).
Proof. unfold actions. rewrite omap_app. cbn. by destruct (action_of e). Qed.

Lemma action_of_register r env : action_of (RunCommand (register_cmd r) env) = Some Register.
Proof. reflexivity. Qed.

Lemma action_of_unregister r : action_of (RunCommand (unregister_cmd r) None) = Some Unregister.
Proof. reflexivity. Qed.

Lemma checked_cases msg reply :
  (reply.1.1 = 0 /\ checked msg reply = Ret tt) \/
  (reply.1.1 <> 0 /\ checked msg reply = Halt (FailJson (command_failure msg reply))).
Proof.
  unfold checked. destruct (Z.eqb_spec reply.1.1 0); [left|right]; done.
Qed.

(** One action: the object is untouched, a halt is a [fail_json], and
    the action is recorded whether or not it succeeds. *)
Lemma perform_inv a m o m' :
  perform host a m = (o, m') ->
  self m' = self m /\
  actions (trace m') = actions (trace m) ++ [a] /\
  (o = Ret tt \/ exists kw, o = Halt (FailJson kw)).
Proof.
  destruct a.
  - rewrite perform_register_run. intros [= <- <-]. split_and!.
    + cbn. apply self_start_config.
    + unfold after_command. cbn [trace].
      rewrite actions_snoc, action_of_register. cbn [from_option].
      by rewrite actions_start_config.
    + destruct (checked_cases "Error while registering runner"
        (run_command host (register_cmd (self m)) (register_environment host (self m))
           (fs (start_config host m))).1) as [[_ ->]|[_ ->]]; eauto.
  - rewrite perform_unregister_run. intros [= <- <-]. split_and!.
    + done.
    + unfold after_command. cbn [trace].
      by rewrite actions_snoc, action_of_unregister.
    + destruct (checked_cases "Error while unregistering runner"
        (run_command host (unregister_cmd (self m)) None (fs m)).1) as [[_ ->]|[_ ->]]; eauto.
Qed.

Lemma perform_ok a m :
  succeeds host -> exists m', perform host a m = (Ret tt, m').
Proof.
  intros Hok. destruct a.
  - rewrite perform_register_run. eexists. f_equal.
    unfold checked. rewrite Hok; [done|]. by rewrite action_of_register.
  - rewrite perform_unregister_run. eexists. f_equal.
    unfold checked. rewrite Hok; [done|]. by rewrite action_of_unregister.
Qed.

(** A sequence of actions: the object is untouched; the actions
    recorded are all of them when the sequence returns, and the ones up
    to the failing one when it halts, which it does by [fail_json]. *)
Lemma perform_all_inv acts m o m' :
  perform_all host acts m = (o, m') ->
  self m' = self m /\
  exists performed,
    actions (trace m') = actions (trace m) ++ performed /\
    (o = Ret tt /\ performed = acts \/
     (exists kw, o = Halt (FailJson kw)) /\ performed `prefix_of` acts).
Proof.
  revert m. induction acts as [|a acts IH]; intros m.
  - cbn. munfold. intros [= <- <-]. split; [done|]. exists [].
    rewrite app_nil_r. auto.
  - cbn [perform_all]. munfold.
    destruct (perform host a m) as [o1 m1] eqn:Ha.
    apply perform_inv in Ha as (Hs & Ht & Ho).
    destruct Ho as [->|[kw ->]].
    + intros H. apply IH in H as (Hs' & performed & Hp & H). split; [congruence|].
      exists (a :: performed). rewrite Hp, Ht, <- app_assoc. split; [done|].
      destruct H as [[-> ->]|[Hh Hpre]]; [by left|right].
      split; [done|]. by apply prefix_cons.
    + intros [= <- <-]. split; [done|]. exists [a]. split; [done|]. right.
      split; [eauto|]. apply prefix_cons, prefix_nil.
Qed.

Lemma perform_all_ok acts m :
  succeeds host -> exists m', perform_all host acts m = (Ret tt, m').
Proof.
  intros Hok. revert m. induction acts as [|a acts IH]; intros m.
  - by eexists.
  - cbn [perform_all]. munfold.
    destruct (perform_ok a m Hok) as [m1 ->]. apply IH.
Qed.

Lemma actions_observation r k : actions (take k (observation_events r)) = [].
Proof. by do 5 (destruct k as [|k]; [done|]). Qed.

(** What an observation can do: it records a prefix of the observation
    events, leaves the object alone or notes a name mismatch, returns
    one of three states, and never exits. *)
Lemma act_observe_inv m o m1 :
  act_observe host m = (o, m1) ->
  (exists k, trace m1 = trace m ++ take k (observation_events (self m))) /\
  (self m1 = self m \/ exists n, self m1 = self (name_noted n m)) /\
  match o with
  | Ret b => b = UNREGISTERED \/ b = TOKEN_MISMATCH \/ b = REGISTERED
  | Halt (ExitJson _) => False
  | Halt _ => True
  end.
Proof.
  unfold act_observe. munfold. rewrite check_service_run. unfold after_command.
  destruct (run_command host (status_cmd (self m)) None (fs m)) as [[[rc out] err] fs'].
  cbn [fst snd].
  set (m0 := {| self := self m; fs := fs';
                trace := trace m ++ [RunCommand (status_cmd (self m)) None] |}).
  assert (forall o', (o', m0) = (o, m1) ->
    match o' with Halt (FailJson _) => True | _ => False end ->
    (exists k, trace m1 = trace m ++ take k (observation_events (self m))) /\
    (self m1 = self m \/ exists n, self m1 = self (name_noted n m)) /\
    match o with
    | Ret b => b = UNREGISTERED \/ b = TOKEN_MISMATCH \/ b = REGISTERED
    | Halt (ExitJson _) => False
    | Halt _ => True
    end) as Hstop.
  { intros o' [= <- <-] Ho'. split_and!; [by exists 1%nat|by left|].
    by destruct o' as [|[]]. }
  destruct (rc =? 0); cbn [negb].
  2: { destruct (re_search "Service has stopped" err); intros H; by eapply Hstop. }
  destruct (re_search "Service is running" out); [|intros H; by eapply Hstop].
  clear Hstop. rewrite verify_config_exists_run. unfold after_event. cbn [fs self trace m0].
  destruct (bool_decide (is_Some (fs' !! RUNNER_ID))).
  2: { intros [= <- <-]. split_and!; [by exists 2%nat; rewrite <- app_assoc|by left|done]. }
  destruct (bool_decide (is_Some (fs' !! RUNNER_CONFIG))).
  2: { intros [= <- <-]. split_and!;
         [by exists 3%nat; cbn; rewrite <- !app_assoc|by left|by left]. }
  rewrite load_config_content_run. unfold after_event. cbn [fs self trace].
  destruct (fs' !! RUNNER_CONFIG) as [text|].
  2: { intros [= <- <-]. split_and!;
         [by exists 4%nat; cbn; rewrite <- !app_assoc|by left|done]. }
  destruct (toml_loads host text) as [config|].
  2: { intros [= <- <-]. split_and!;
         [by exists 4%nat; cbn; rewrite <- !app_assoc|by left|done]. }
  rewrite get_state_run. cbn [fs self trace].
  destruct (first_runner config) as [[n t]|e].
  - destruct (ne_str t (token (self m))).
    { intros [= <- <-]. split_and!;
        [by exists 4%nat; cbn; rewrite <- !app_assoc|by left|auto]. }
    destruct (ne_str n (name (self m))); intros [= <- <-]; split_and!;
      try (by exists 4%nat; cbn; rewrite <- !app_assoc); eauto.
  - destruct e; intros [= <- <-]; split_and!;
      try (by exists 4%nat; cbn; rewrite <- !app_assoc); eauto.
Qed.

End Runs.

(** ** The report and the transition that fired *)

Lemma value_eqb a b : String.eqb (value a) (value b) = bool_decide (a = b).
Proof. by destruct a, b. Qed.

Lemma report_runner_state before after r :
  report before after r !! "runner_state" = Some (PStr (value (default before after))).
Proof.
  unfold report. rewrite lookup_insert_ne by done.
  destruct (warnings r); [|rewrite lookup_insert_ne by done]; by rewrite lookup_insert_eq.
Qed.

Lemma report_changed before after r :
  report before after r !! "changed" =
    Some (PBool (bool_decide (before <> default before after))).
Proof.
  unfold report. rewrite lookup_insert_eq, value_eqb. do 2 f_equal.
  repeat case_bool_decide; naive_solver.
Qed.

Lemma report_msg before after r :
  report before after r !! "msg" = command_results r !! "msg".
Proof.
  unfold report. rewrite lookup_insert_ne by done.
  destruct (warnings r); [|rewrite lookup_insert_ne by done]; by rewrite lookup_insert_ne.
Qed.

Lemma report_warnings before after r :
  report before after r !! "warnings" =
    match warnings r with
    | [] => command_results r !! "warnings"
    | w => Some (PList (PStr <$> w))
    end.
Proof.
  unfold report. rewrite lookup_insert_ne by done.
  destruct (warnings r); [by rewrite lookup_insert_ne|by rewrite lookup_insert_eq].
Qed.

Lemma fired_observed r r' before :
  r' = r \/ (exists n, r' = set_current_name (Some n)
                           (set_warnings (warnings r ++ [name_mismatch_warning]) r)) ->
  fired r' before = fired r before.
Proof. by intros [->|[n ->]]. Qed.

Lemma fired_spec r before :
  state r = "present" \/ state r = "absent" ->
  before = UNREGISTERED \/ before = TOKEN_MISMATCH \/ before = REGISTERED ->
  spec_transition (state r) before (recreate r) =
    match fired r before with
    | Some (acts, after, _) => (acts, after)
    | None => ([], before)
    end.
Proof.
  unfold spec_transition, fired.
  intros [->| ->] [->|[->| ->]]; cbn; try done; by destruct (recreate r).
Qed.

Lemma fired_transitions r before acts after msg :
  fired r before = Some (acts, after, msg) -> (before, after, acts, msg) ∈ transitions.
Proof.
  unfold fired, transitions. intros H.
  destruct (String.eqb (state r) "present").
  - destruct before; try discriminate H.
    + destruct (recreate r); [|discriminate H]. injection H as <- <- <-. set_solver.
    + injection H as <- <- <-. set_solver.
    + injection H as <- <- <-. set_solver.
  - destruct (String.eqb (state r) "absent"); [|discriminate H].
    destruct before; try discriminate H. injection H as <- <- <-. set_solver.
Qed.

(** ** The transition table (C1, C2) *)

(** C1. For a desired target among present and absent and whatever
    state the observation yields (always one of UNREGISTERED,
    TOKEN_MISMATCH and REGISTERED), [act] follows the transition table
    of the specification: a run that exits has performed exactly the
    actions of the table, in its order, and reports the result state of
    the table; no run performs anything outside the table (a run the
    binary fails stops within it); and when the binary carries out what
    it is asked, the run does exit. *)
Theorem act_follows_transition_table (host : Host) (r : Runner)
    (files : gmap string string) (before : RunnerState) (m1 : Machine) :
  state r = "present" \/ state r = "absent" ->
  act_observe host (boot r files) = (Ret before, m1) ->
  (before = UNREGISTERED \/ before = TOKEN_MISMATCH \/ before = REGISTERED) /\
  (forall kw m2,
     act host (boot r files) = (Halt (ExitJson kw), m2) ->
     actions (trace m2) = (spec_transition (state r) before (recreate r)).1 /\
     kw !! "runner_state" =
       Some (PStr (value (spec_transition (state r) before (recreate r)).2))) /\
  (forall o m2,
     act host (boot r files) = (o, m2) ->
     actions (trace m2) `prefix_of` (spec_transition (state r) before (recreate r)).1) /\
  (succeeds host ->
   exists kw m2, act host (boot r files) = (Halt (ExitJson kw), m2)).
Proof.
  intros Hstate Hobs.
  destruct (act_observe_inv _ _ _ _ Hobs) as ((k & Htr) & Hself & Hb).
  split; [exact Hb|].
  rewrite (fired_spec r before Hstate Hb).
  unfold act. munfold. rewrite Hobs, act_transition_fired.
  rewrite (fired_observed r (self m1) before Hself).
  assert (actions (trace m1) = []) as Hnone.
  { rewrite Htr. cbn. apply actions_observation. }
  destruct (fired r before) as [[[acts after] msg]|].
  - munfold. unfold set_result. munfold.
    destruct (perform_all host acts m1) as [o1 m'] eqn:Hp.
    pose proof (perform_all_inv host _ _ _ _ Hp) as (_ & performed & Hacts & Hend).
    rewrite Hnone in Hacts. cbn [app] in Hacts. cbn [fst snd].
    split_and!.
    + intros kw m2. destruct Hend as [[-> ->]|[[kw' ->] _]]; [|done].
      rewrite act_report_run. intros [= <- <-]. cbn [trace].
      by rewrite report_runner_state.
    + intros o m2. destruct Hend as [[-> ->]|[[kw' ->] Hpre]].
      * rewrite act_report_run. intros [= <- <-]. cbn [trace]. by rewrite Hacts.
      * intros [= <- <-]. by rewrite Hacts.
    + intros Hok. destruct (perform_all_ok host acts m1 Hok) as [m2 Hp'].
      rewrite Hp' in Hp. injection Hp as <- <-.
      rewrite act_report_run. eauto.
  - rewrite act_report_run. cbn [fst snd]. split_and!.
    + intros kw m2 [= <- <-]. cbn [trace]. by rewrite report_runner_state.
    + intros o m2 [= <- <-]. cbn [trace]. by rewrite Hnone.
    + eauto.
Qed.

Lemma Runner_init_fresh host p r :
  Runner_init host p = inr r ->
  warnings r = [] /\ current_name r = None /\ command_results r = ∅.
Proof.
  unfold Runner_init. destruct (get_binary host); [done|]. by intros [= <-].
Qed.

Lemma transitions_change before after acts msg :
  (before, after, acts, msg) ∈ transitions -> after <> before /\ acts <> [].
Proof.
  unfold transitions. rewrite !elem_of_cons, elem_of_nil.
  intros [H|[H|[H|[H|[]]]]]; by injection H as -> -> -> ->.
Qed.

Lemma transitions_messages : NoDup (snd <$> transitions).
Proof.
  cbn. repeat (apply NoDup_cons; split; [rewrite ?elem_of_cons, elem_of_nil; intros H;
    repeat destruct H as [H|H]; done|]). apply NoDup_nil_2.
Qed.

(** C2. When [act] exits, the reported changed flag tells whether the
    state before and the reported state differ.  On a path with no action
    the reported state is the observed one, changed is false and there is
    no message; on a path with actions changed is true and the message is
    the one of the transition that fired, and the four transitions have
    four different messages. *)
Theorem act_reports_change (host : Host) (p : params.t) (r : Runner)
    (files : gmap string string) (kw : gmap string pyval) (m : Machine) :
  Runner_init host p = inr r ->
  act host (boot r files) = (Halt (ExitJson kw), m) ->
  exists before after m1,
    act_observe host (boot r files) = (Ret before, m1) /\
    kw !! "runner_state" = Some (PStr (value after)) /\
    kw !! "changed" = Some (PBool (bool_decide (before <> after))) /\
    ((after = before /\ actions (trace m) = [] /\
      kw !! "changed" = Some (PBool false) /\ kw !! "msg" = None) \/
     (exists acts msg,
        (before, after, acts, msg) ∈ transitions /\ actions (trace m) = acts /\
        acts <> [] /\
        kw !! "changed" = Some (PBool true) /\ kw !! "msg" = Some (PStr msg))) /\
    NoDup (snd <$> transitions).
Proof.
  intros Hinit Hact. apply Runner_init_fresh in Hinit as (_ & _ & Hres).
  unfold act in Hact. munfold.
  destruct (act_observe host (boot r files)) as [o m1] eqn:Hobs.
  destruct (act_observe_inv _ _ _ _ Hobs) as ((k & Htr) & Hself & Hb).
  destruct o as [before|h]; [|by injection Hact as -> _].
  assert (actions (trace m1) = []) as Hnone.
  { rewrite Htr. cbn. apply actions_observation. }
  assert (command_results (self m1) = ∅) as Hres1.
  { by destruct Hself as [->|[n ->]]. }
  rewrite act_transition_fired in Hact.
  destruct (fired (self m1) before) as [[[acts after] msg]|] eqn:Hf.
  - munfold. destruct (perform_all host acts m1) as [o2 m2] eqn:Hp.
    apply perform_all_inv in Hp as (_ & performed & Hacts & [[-> ->]|[[kw' ->] _]]);
      [|done].
    unfold set_result in Hact. munfold. rewrite act_report_run in Hact.
    injection Hact as <- <-. cbn [trace self].
    apply fired_transitions in Hf.
    destruct (transitions_change _ _ _ _ Hf) as [Hne Hacts'].
    exists before, after, m1. split; [done|].
    rewrite report_runner_state, report_changed, report_msg. cbn [default].
    split; [done|]. split; [done|]. split; [|apply transitions_messages].
    right. exists acts, msg. split_and!; try done.
    + by rewrite Hacts, Hnone.
    + by rewrite bool_decide_true.
    + cbn. by rewrite lookup_insert_eq.
  - rewrite act_report_run in Hact. injection Hact as <- <-. cbn [trace self].
    exists before, before, m1. split; [done|].
    rewrite report_runner_state, report_changed, report_msg. cbn [default].
    split; [done|]. split; [done|]. split; [|apply transitions_messages].
    left. split_and!; try done.
    + by rewrite bool_decide_false by naive_solver.
    + by rewrite Hres1.
Qed.

(** ** State observation (C3, C4, C5) *)

Section Observation.
Context (host : Host).

(** The machine a full observation leaves. *)
Lemma act_observe_document r files files' config :
  service_running host r files files' ->
  is_Some (files' !! RUNNER_ID) ->
  document host files' config ->
  act_observe host (boot r files) =
    get_state config {| self := r; fs := files'; trace := observation_events r |}.
Proof.
  intros (out & err & Hrun & Hsay) Hid (text & Htext & Hload).
  unfold act_observe. munfold. rewrite check_service_run. unfold after_command.
  cbn [boot self fs trace]. rewrite Hrun. cbn [fst snd Z.eqb negb]. rewrite Hsay.
  rewrite verify_config_exists_run. unfold after_event. cbn [self fs trace].
  rewrite bool_decide_true by done. rewrite bool_decide_true by (by rewrite Htext).
  rewrite load_config_content_run. unfold after_event. cbn [self fs trace].
  by rewrite Htext, Hload.
Qed.

Lemma act_observe_no_config r files files' :
  service_running host r files files' ->
  is_Some (files' !! RUNNER_ID) ->
  files' !! RUNNER_CONFIG = None ->
  act_observe host (boot r files) =
    (Ret UNREGISTERED,
     {| self := r; fs := files'; trace := take 3 (observation_events r) |}).
Proof.
  intros (out & err & Hrun & Hsay) Hid Hnone.
  unfold act_observe. munfold. rewrite check_service_run. unfold after_command.
  cbn [boot self fs trace]. rewrite Hrun. cbn [fst snd Z.eqb negb]. rewrite Hsay.
  rewrite verify_config_exists_run. unfold after_event. cbn [self fs trace].
  rewrite bool_decide_true by done.
  rewrite bool_decide_false by (rewrite Hnone; by intros [? ?]).
  done.
Qed.

Lemma first_runner_first_entry config entry :
  first_entry config = Some entry ->
  first_runner config =
    match entry with
    | None => match config !! "runners" with None => Exc KeyError | _ => Exc IndexError end
    | Some e =>
        match e !! "name", e !! "token" with
        | Some n, Some t => Val (n, t)
        | _, _ => Exc KeyError
        end
    end.
Proof.
  unfold first_entry. destruct (config !! "runners") as [v|] eqn:Hr.
  - destruct v as [| | | | |[|[] rest]|]; try done.
    + intros [= <-]. unfold first_runner. cbn. by rewrite Hr.
    + intros [= <-]. by eapply first_runner_table.
  - intros [= <-]. unfold first_runner. cbn. by rewrite Hr.
Qed.

Lemma unregister_cmd_captured r n :
  current_name r = Some n -> truthy n = true ->
  unregister_cmd r = [PStr (bin r); PStr "unregister"; PStr "--name"; n].
Proof. intros Hc Ht. unfold unregister_cmd, unregister_name. by rewrite Hc, Ht. Qed.

Lemma unregister_cmd_desired r :
  current_name r = None ->
  unregister_cmd r = [PStr (bin r); PStr "unregister"; PStr "--name"; PStr (name r)].
Proof. intros Hc. unfold unregister_cmd, unregister_name. by rewrite Hc. Qed.

End Observation.

(** C3 (amended). On a document of the shape the service writes,
    [get_state] returns what section 4.2 says: UNREGISTERED when the
    first entry, its name or its token is missing, TOKEN_MISMATCH when
    the token differs, REGISTERED when it matches.  When the token
    matches and the name differs it appends exactly one name-mismatch
    warning and captures the observed name, and a later unregistration
    on that object targets the captured name when that name is truthy
    (a non-empty string, say). *)
Theorem get_state_observation (host : Host) (config : gmap string pyval)
    (entry : option (gmap string pyval)) (m : Machine) :
  first_entry config = Some entry ->
  get_state config m =
    (Ret (spec_observation (token (self m)) (name (self m)) entry).1,
     match (spec_observation (token (self m)) (name (self m)) entry).2 with
     | Some n => name_noted n m
     | None => m
     end) /\
  forall n, (spec_observation (token (self m)) (name (self m)) entry).2 = Some n ->
    (spec_observation (token (self m)) (name (self m)) entry).1 = REGISTERED /\
    warnings (self (name_noted n m)) = warnings (self m) ++ [name_mismatch_warning] /\
    current_name (self (name_noted n m)) = Some n /\
    (truthy n = true ->
     forall m', self m' = self (name_noted n m) ->
       unregister_runner host m' =
         (checked "Error while unregistering runner"
            (run_command host
               [PStr (bin (self m)); PStr "unregister"; PStr "--name"; n] None (fs m')).1,
          after_command host
            [PStr (bin (self m)); PStr "unregister"; PStr "--name"; n] None m')).
Proof.
  intros Hshape. rewrite get_state_run, (first_runner_first_entry _ _ Hshape).
  unfold spec_observation. split.
  - destruct entry as [e|]; [|by destruct (config !! "runners")].
    destruct (e !! "name") as [n|]; [|done].
    destruct (e !! "token") as [t|]; [|done].
    destruct (ne_str t (token (self m))); [done|].
    by destruct (ne_str n (name (self m))).
  - intros n. destruct entry as [e|]; [|done].
    destruct (e !! "name") as [n'|]; [|done].
    destruct (e !! "token") as [t|]; [|done].
    destruct (ne_str t (token (self m))); [done|].
    destruct (ne_str n' (name (self m))); [|done].
    cbn. intros [= ->]. split_and!; try done.
    intros Ht m' Hm'. rewrite unregister_runner_run.
    rewrite (unregister_cmd_captured (self m') n); [|by rewrite Hm'|done].
    by rewrite Hm'.
Qed.

(** A first entry that is not a table is neither missing nor an agent
    entry: subscripting it raises [TypeError], which [get_state] does not
    catch. *)
Lemma get_state_scalar_entry (config : gmap string pyval) (z : Z)
    (rest : list pyval) (m : Machine) :
  config !! "runners" = Some (PList (PInt z :: rest)) ->
  get_state config m = (Halt (Uncaught TypeError), m).
Proof.
  intros H. rewrite get_state_run. unfold first_runner. cbn. by rewrite H.
Qed.

Lemma act_after_observe host m before m1 :
  act_observe host m = (Ret before, m1) ->
  act host m =
    match fired (self m1) before with
    | None => act_report before None m1
    | Some (acts, after, msg) =>
        match perform_all host acts m1 with
        | (Ret _, m2) => act_report before (Some after) (after_result "msg" (PStr msg) m2)
        | (Halt h, m2) => (Halt h, m2)
        end
    end.
Proof.
  intros Hobs. unfold act. munfold. rewrite Hobs, act_transition_fired.
  destruct (fired (self m1) before) as [[[acts after] msg]|]; [|done].
  munfold. by destruct (perform_all host acts m1) as [[[]|h] m2].
Qed.

Lemma action_events_app tr tr' :
  action_events (tr ++ tr') = action_events tr ++ action_events tr'.
Proof. apply List.filter_app. Qed.

Lemma action_events_observation r : action_events (observation_events r) = [].
Proof. reflexivity. Qed.

Lemma action_events_start_config host m :
  action_events (trace (start_config host m)) = action_events (trace m).
Proof.
  unfold start_config. destruct (global_params (self m)); [|done].
  destruct (truthy _); [|done].
  cbn [after_seed trace]. rewrite action_events_app. cbn. by rewrite app_nil_r.
Qed.

(** C4 (amended). With desired target present, a first entry whose
    token differs from the desired one makes [act] unregister, then
    register, and exit as REREGISTERED; the unregistration names the
    desired name, nothing is captured and no warning is reported.  The
    binary is taken to carry out the actions it is asked. *)
Theorem token_mismatch_reregisters (host : Host) (p : params.t) (r : Runner)
    (files files' : gmap string string) (config : gmap string pyval) (n t : pyval) :
  Runner_init host p = inr r ->
  state r = "present" ->
  succeeds host ->
  service_running host r files files' ->
  is_Some (files' !! RUNNER_ID) ->
  document host files' config ->
  first_runner config = Val (n, t) ->
  t <> PStr (token r) ->
  exists kw m,
    act host (boot r files) = (Halt (ExitJson kw), m) /\
    kw !! "runner_state" = Some (PStr (value REREGISTERED)) /\
    kw !! "changed" = Some (PBool true) /\
    kw !! "warnings" = None /\
    current_name (self m) = None /\
    action_events (trace m) =
      [RunCommand [PStr (bin r); PStr "unregister"; PStr "--name"; PStr (name r)] None;
       RunCommand (register_cmd r) (register_environment host r)].
Proof.
  intros Hinit Hstate Hok Hrun Hid Hdoc Hfirst Hne.
  apply Runner_init_fresh in Hinit as (Hw & Hc & Hres).
  pose proof (act_observe_document host r files files' config Hrun Hid Hdoc) as Hobs.
  rewrite get_state_run, Hfirst in Hobs. cbn [self] in Hobs.
  apply ne_str_true in Hne. rewrite Hne in Hobs.
  rewrite (act_after_observe _ _ _ _ Hobs). cbn [self].
  unfold fired. rewrite Hstate. cbn [String.eqb Ascii.eqb Bool.eqb].
  cbn [perform_all]. munfold.
  rewrite perform_unregister_run. unfold checked at 1.
  rewrite Hok by (by rewrite action_of_unregister).
  rewrite perform_register_run. unfold checked at 1.
  rewrite Hok by (by rewrite action_of_register).
  cbn [Z.eqb]. rewrite act_report_run.
  eexists _, _. split; [reflexivity|].
  rewrite report_runner_state, report_changed, report_warnings.
  cbn [default after_result after_command self trace warnings current_name
       set_command_results command_results].
  rewrite !self_start_config. cbn [after_command self].
  rewrite Hw, Hc, Hres. split_and!; try done.
  rewrite action_events_app, action_events_start_config.
  unfold after_command. cbn [trace].
  rewrite action_events_app, action_events_observation.
  rewrite (unregister_cmd_desired r Hc). reflexivity.
Qed.

(** C5 (amended). With desired target present and recreate off, a first
    entry whose token matches and whose name differs makes [act] exit as
    REGISTERED with the name-mismatch warning, changed false and no
    message, having invoked neither register nor unregister. *)
Theorem name_mismatch_only_warns (host : Host) (p : params.t) (r : Runner)
    (files files' : gmap string string) (config : gmap string pyval) (n t : pyval) :
  Runner_init host p = inr r ->
  state r = "present" ->
  recreate r = false ->
  service_running host r files files' ->
  is_Some (files' !! RUNNER_ID) ->
  document host files' config ->
  first_runner config = Val (n, t) ->
  t = PStr (token r) ->
  n <> PStr (name r) ->
  exists kw m,
    act host (boot r files) = (Halt (ExitJson kw), m) /\
    kw !! "runner_state" = Some (PStr (value REGISTERED)) /\
    kw !! "warnings" = Some (PList [PStr name_mismatch_warning]) /\
    kw !! "changed" = Some (PBool false) /\
    kw !! "msg" = None /\
    trace m = observation_events r /\
    actions (trace m) = [] /\
    fs m = files'.
Proof.
  intros Hinit Hstate Hre Hrun Hid Hdoc Hfirst Heq Hne.
  apply Runner_init_fresh in Hinit as (Hw & Hc & Hres).
  pose proof (act_observe_document host r files files' config Hrun Hid Hdoc) as Hobs.
  rewrite get_state_run, Hfirst in Hobs. cbn [self] in Hobs.
  apply ne_str_false in Heq. apply ne_str_true in Hne. rewrite Heq, Hne in Hobs.
  rewrite (act_after_observe _ _ _ _ Hobs). cbn [self name_noted].
  unfold fired. cbn [state recreate set_current_name set_warnings].
  rewrite Hstate, Hre. cbn [String.eqb Ascii.eqb Bool.eqb].
  rewrite act_report_run.
  eexists _, _. split; [reflexivity|].
  rewrite report_runner_state, report_changed, report_warnings, report_msg.
  cbn [default self trace fs warnings command_results set_current_name set_warnings].
  unfold name_noted.
  cbn [default self trace fs warnings command_results set_current_name set_warnings].
  rewrite Hw, Hres. split_and!; done.
Qed.

(** ** Checks that stop a run (C6, C7) *)

Lemma act_halts_with_observe host m h m1 :
  act_observe host m = (Halt h, m1) -> act host m = (Halt h, m1).
Proof. intros H. unfold act. munfold. by rewrite H. Qed.

(** C6 (amended). The status query comes first and nothing follows a
    failed check.  A non-zero exit whose stderr says the service has
    stopped aborts with a message of its own and without stdout or
    stderr; any other non-zero exit, and an exit 0 whose stdout does not
    say the service is running, abort with stdout and stderr reported.
    A missing identity marker aborts after the one lookup.  A present
    marker with no configuration document is no error: the observed
    state is UNREGISTERED. *)
Theorem preflight_checks (host : Host) (r : Runner) (files files' : gmap string string)
    (rc : Z) (stdout stderr : string) :
  run_command host (status_cmd r) None files = (rc, stdout, stderr, files') ->
  let m0 := {| self := r; fs := files'; trace := [RunCommand (status_cmd r) None] |} in
  (rc <> 0 -> re_search "Service has stopped" stderr = true ->
   act host (boot r files) =
     (Halt (FailJson {[ "msg" := PStr "Service(systemd) not running." ]}), m0)) /\
  (rc <> 0 -> re_search "Service has stopped" stderr = false ->
   act host (boot r files) =
     (Halt (FailJson {[ "msg" := PStr "gitlab-runner can't get status";
                        "stdout" := PStr stdout; "stderr" := PStr stderr ]}), m0)) /\
  (rc = 0 -> re_search "Service is running" stdout = false ->
   act host (boot r files) =
     (Halt (FailJson
        {[ "msg" := PStr "Gitlab-Runner service not running! Ensure service is up.";
           "stdout" := PStr stdout; "stderr" := PStr stderr ]}), m0)) /\
  (rc = 0 -> re_search "Service is running" stdout = true ->
   files' !! RUNNER_ID = None ->
   act host (boot r files) =
     (Halt (FailJson {[ "msg" := PStr "Runner didn't initialize it's runner_id." ]}),
      after_event (OsStat RUNNER_ID) m0)) /\
  (rc = 0 -> re_search "Service is running" stdout = true ->
   is_Some (files' !! RUNNER_ID) -> files' !! RUNNER_CONFIG = None ->
   act_observe host (boot r files) =
     (Ret UNREGISTERED,
      after_event (OsStat RUNNER_CONFIG) (after_event (OsStat RUNNER_ID) m0))).
Proof.
  intros Hrun m0.
  assert (check_service host (boot r files) =
    ((if negb (rc =? 0) then
        if re_search "Service has stopped" stderr then
          Halt (FailJson {[ "msg" := PStr "Service(systemd) not running." ]})
        else Halt (FailJson (command_failure "gitlab-runner can't get status"
                               (rc, stdout, stderr)))
      else if re_search "Service is running" stdout then Ret tt
      else Halt (FailJson (command_failure
                   "Gitlab-Runner service not running! Ensure service is up."
                   (rc, stdout, stderr)))), m0)) as Hcheck.
  { rewrite check_service_run. unfold after_command. cbn [boot self fs trace].
    by rewrite Hrun. }
  split_and!.
  - intros Hrc Hstop. apply act_halts_with_observe. unfold act_observe.
    munfold. rewrite Hcheck. apply Z.eqb_neq in Hrc. by rewrite Hrc, Hstop.
  - intros Hrc Hstop. apply act_halts_with_observe. unfold act_observe.
    munfold. rewrite Hcheck. apply Z.eqb_neq in Hrc. by rewrite Hrc, Hstop.
  - intros -> Hsay. apply act_halts_with_observe. unfold act_observe.
    munfold. rewrite Hcheck. cbn [Z.eqb negb]. by rewrite Hsay.
  - intros -> Hsay Hid. apply act_halts_with_observe. unfold act_observe.
    munfold. rewrite Hcheck. cbn [Z.eqb negb]. rewrite Hsay.
    rewrite verify_config_exists_run. cbn [m0 fs].
    rewrite bool_decide_false; [done|]. rewrite Hid. by intros [? ?].
  - intros -> Hsay Hid Hnone. unfold act_observe.
    munfold. rewrite Hcheck. cbn [Z.eqb negb]. rewrite Hsay.
    rewrite verify_config_exists_run. cbn [m0 fs].
    rewrite bool_decide_true by done.
    rewrite bool_decide_false; [done|]. rewrite Hnone. by intros [? ?].
Qed.

(** C7. A configuration document the TOML parser rejects makes the run
    end with the parser's exception, uncaught: the observation yields no
    state (so not UNREGISTERED), nothing past the read is attempted and
    the files stay as the status query left them. *)
Theorem malformed_config_is_fatal (host : Host) (r : Runner)
    (files files' : gmap string string) (text : string) :
  service_running host r files files' ->
  is_Some (files' !! RUNNER_ID) ->
  files' !! RUNNER_CONFIG = Some text ->
  toml_loads host text = None ->
  let m1 := {| self := r; fs := files'; trace := observation_events r |} in
  act_observe host (boot r files) = (Halt (Uncaught TomlDecodeError), m1) /\
  act host (boot r files) = (Halt (Uncaught TomlDecodeError), m1) /\
  actions (trace m1) = [].
Proof.
  intros (out & err & Hrun & Hsay) Hid Htext Hload m1.
  assert (act_observe host (boot r files) = (Halt (Uncaught TomlDecodeError), m1)) as Hobs.
  { unfold act_observe. munfold. rewrite check_service_run. unfold after_command.
    cbn [boot self fs trace]. rewrite Hrun. cbn [fst snd Z.eqb negb]. rewrite Hsay.
    rewrite verify_config_exists_run. unfold after_event. cbn [self fs trace].
    rewrite bool_decide_true by done. rewrite bool_decide_true by (by rewrite Htext).
    rewrite load_config_content_run. unfold after_event. cbn [self fs trace].
    by rewrite Htext, Hload. }
  split_and!; [done|by apply act_halts_with_observe|done].
Qed.

(** ** Seeding the global settings (C8, C9, C10) *)

Lemma start_config_seeds host gp m :
  global_params (self m) = Some gp -> gp <> ∅ ->
  start_config host m = after_seed host gp m.
Proof.
  intros Hgp Hne. unfold start_config. rewrite Hgp. cbn.
  by rewrite bool_decide_false.
Qed.

Lemma start_config_idle host m :
  global_params (self m) = Some ∅ \/ global_params (self m) = None ->
  start_config host m = m.
Proof. unfold start_config. by intros [-> | ->]. Qed.

(** What one unregistration records. *)
Lemma perform_unregister_trace host m o m' :
  perform host Unregister m = (o, m') ->
  self m' = self m /\
  trace m' = trace m ++ [RunCommand (unregister_cmd (self m)) None].
Proof. rewrite perform_unregister_run. by intros [= <- <-]. Qed.

(** What one registration records when there are settings to seed. *)
Lemma perform_register_trace host gp m o m' :
  global_params (self m) = Some gp -> gp <> ∅ ->
  perform host Register m = (o, m') ->
  self m' = self m /\
  trace m' = trace m ++ seed_events host gp (fs m) ++
             [RunCommand (register_cmd (self m)) (register_environment host (self m))].
Proof.
  intros Hgp Hne. rewrite perform_register_run, (start_config_seeds _ gp) by done.
  intros [= <- <-]. split; [done|]. cbn [after_command after_seed trace].
  by rewrite <- app_assoc.
Qed.

(** C8 (amended). When the global settings are a non-empty mapping,
    whatever the binary answers, the events of a run are a prefix of the
    observation followed by one of: nothing; one unregistration; one
    seeding and then the registration; one unregistration, one seeding
    and then the registration.  So a seeding comes immediately before
    every registration and nowhere else, never before an unregistration. *)
Theorem seeding_precedes_registration (host : Host) (r : Runner)
    (files : gmap string string) (gp : gmap string pyval)
    (o : res unit) (m : Machine) :
  global_params r = Some gp ->
  gp <> ∅ ->
  act host (boot r files) = (o, m) ->
  let register := RunCommand (register_cmd r) (register_environment host r) in
  let unregister n :=
    RunCommand [PStr (bin r); PStr "unregister"; PStr "--name"; n] None in
  exists k body,
    trace m = take k (observation_events r) ++ body /\
    (body = [] \/
     (exists n, body = [unregister n]) \/
     (exists d, body = seed_events host gp d ++ [register]) \/
     (exists n d, body = unregister n :: seed_events host gp d ++ [register])).
Proof.
  intros Hgp Hne Hact register unregister.
  destruct (act_observe host (boot r files)) as [o1 m1] eqn:Hobs.
  destruct (act_observe_inv _ _ _ _ Hobs) as ((k & Htr) & Hself & _).
  cbn [boot self trace app] in Htr, Hself.
  assert (global_params (self m1) = Some gp /\
          register_cmd (self m1) = register_cmd r /\
          register_environment host (self m1) = register_environment host r /\
          bin (self m1) = bin r) as (Hgp1 & Hcmd & Henv & Hbin).
  { by destruct Hself as [->|[n ->]]. }
  exists k. destruct o1 as [before|h].
  2: { rewrite (act_halts_with_observe _ _ _ _ Hobs) in Hact. injection Hact as <- <-.
       exists []. rewrite app_nil_r. eauto. }
  rewrite (act_after_observe _ _ _ _ Hobs) in Hact.
  destruct (fired (self m1) before) as [[[acts after] msg]|] eqn:Hf.
  2: { rewrite act_report_run in Hact. injection Hact as <- <-. cbn [trace].
       exists []. rewrite app_nil_r. eauto. }
  assert (exists m2, trace m = trace m2 /\ (perform_all host acts m1).2 = m2) as (m2 & -> & Hm2).
  { destruct (perform_all host acts m1) as [[[]|h] m2].
    - rewrite act_report_run in Hact. injection Hact as <- <-.
      eexists. split; [|reflexivity]. done.
    - injection Hact as <- <-. eexists. split; [|reflexivity]. done. }
  clear Hact. apply fired_transitions in Hf. unfold transitions in Hf.
  rewrite !elem_of_cons, elem_of_nil in Hf.
  assert (acts = [Register] \/ acts = [Unregister; Register] \/ acts = [Unregister])
    as Hacts.
  { destruct Hf as [H|[H|[H|[H|[]]]]]; injection H as _ _ <- _; auto. }
  clear Hf. cbn [perform_all] in Hm2. munfold.
  destruct Hacts as [->|[->| ->]]; cbn [perform_all] in Hm2; munfold.
  - destruct (perform host Register m1) as [o3 m3] eqn:Hp.
    apply (perform_register_trace host gp) in Hp as [_ Hp]; [|done..].
    assert (m2 = m3) as -> by (by destruct o3 as [[]|]).
    rewrite Hp, Htr, Hcmd, Henv. eexists. split; [reflexivity|]. eauto.
  - destruct (perform host Unregister m1) as [o3 m3] eqn:Hp.
    apply perform_unregister_trace in Hp as [Hs3 Hp].
    unfold unregister_cmd in Hp. cbn [app] in Hp. rewrite Hbin in Hp.
    destruct o3 as [[]|h]; cbn [snd] in Hm2.
    2: { subst m3. rewrite Hp, Htr. eexists. split; [reflexivity|]. eauto. }
    destruct (perform host Register m3) as [o4 m4] eqn:Hp4.
    apply (perform_register_trace host gp) in Hp4 as [_ Hp4]; [|congruence|done].
    assert (m2 = m4) as -> by (by destruct o4 as [[]|]).
    rewrite Hp4, Hp, Htr, Hs3, Hcmd, Henv. rewrite <- app_assoc.
    eexists. split; [reflexivity|]. right. right. right. eauto.
  - destruct (perform host Unregister m1) as [o3 m3] eqn:Hp.
    apply perform_unregister_trace in Hp as [Hs3 Hp].
    unfold unregister_cmd in Hp. cbn [app] in Hp. rewrite Hbin in Hp.
    assert (m2 = m3) as -> by (by destruct o3 as [[]|]).
    rewrite Hp, Htr. eexists. split; [reflexivity|]. eauto.
Qed.

Lemma default_global_params :
  with_default make_argument_spec as_dict "global_params" None = Some get_default_globals.
Proof. vm_compute. reflexivity. Qed.

Lemma setup_module_object_global_params a p :
  setup_module_object a = Some p ->
  params.global_params p =
    with_default make_argument_spec as_dict "global_params" (args.global_params a).
Proof.
  unfold setup_module_object. destruct (negb _); [done|].
  destruct (args.api_url a); [|done]. cbn [mbind option_bind].
  destruct (with_default make_argument_spec as_str "state" (args.state a)); [|done].
  cbn [mbind option_bind].
  destruct (args.token a); [|done]. cbn [mbind option_bind].
  destruct (args.name a); [|done]. cbn [mbind option_bind].
  destruct (with_default make_argument_spec as_bool "recreate" (args.recreate a)); [|done].
  cbn [mbind option_bind].
  destruct (negb _); [done|]. by intros [= <-].
Qed.

Lemma Runner_init_global_params host p r :
  Runner_init host p = inr r -> global_params r = params.global_params p.
Proof.
  unfold Runner_init. destruct (get_binary host); [done|]. by intros [= <-].
Qed.

(** C9. When the task gives no global settings, the module parameters
    and the object carry the default mapping, which holds exactly
    concurrent = 1, check_interval = 0, connection_max_age = 15m0s,
    shutdown_timeout = 0 and session_server.session_timeout = 1800, and
    that mapping is what [make_start_config] seeds. *)
Theorem default_globals_applied (host : Host) (a : args.t) (p : params.t) (r : Runner) :
  args.global_params a = None ->
  setup_module_object a = Some p ->
  Runner_init host p = inr r ->
  exists gp,
    params.global_params p = Some gp /\
    global_params r = Some gp /\
    gp !! "concurrent" = Some (PInt 1) /\
    gp !! "check_interval" = Some (PInt 0) /\
    gp !! "connection_max_age" = Some (PStr "15m0s") /\
    gp !! "shutdown_timeout" = Some (PInt 0) /\
    gp !! "session_server" = Some (PDict {[ "session_timeout" := PInt 1800 ]}) /\
    dom gp = {[ "concurrent"; "check_interval"; "connection_max_age";
                "shutdown_timeout"; "session_server" ]} /\
    forall m, self m = r -> make_start_config host m = (Ret tt, after_seed host gp m).
Proof.
  intros Hnone Hsetup Hinit.
  apply setup_module_object_global_params in Hsetup.
  rewrite Hnone, default_global_params in Hsetup.
  apply Runner_init_global_params in Hinit. rewrite Hsetup in Hinit.
  exists get_default_globals. split; [exact Hsetup|]. split; [exact Hinit|].
  do 6 (split; [vm_compute; reflexivity|]).
  intros m <-. rewrite make_start_config_run. f_equal.
  apply start_config_seeds; [done|].
  intros H. apply (f_equal (lookup "concurrent")) in H. vm_compute in H. done.
Qed.

(** C10. When the task gives an empty global-settings mapping, the
    object carries the empty mapping, not the defaults, and
    [make_start_config] does nothing: no event, no file touched.  The
    registration that follows runs on the files as they were. *)
Theorem empty_globals_write_nothing (host : Host) (a : args.t) (p : params.t)
    (r : Runner) :
  args.global_params a = Some ∅ ->
  setup_module_object a = Some p ->
  Runner_init host p = inr r ->
  global_params r = Some ∅ /\
  forall m, self m = r ->
    make_start_config host m = (Ret tt, m) /\
    do_enable host m = register_runner host m /\
    (do_enable host m).2 =
      {| self := r;
         fs := (run_command host (register_cmd r) (register_environment host r) (fs m)).2;
         trace := trace m ++ [RunCommand (register_cmd r) (register_environment host r)] |}.
Proof.
  intros Hempty Hsetup Hinit.
  apply setup_module_object_global_params in Hsetup. rewrite Hempty in Hsetup.
  apply Runner_init_global_params in Hinit. rewrite Hsetup in Hinit.
  cbn [with_default] in Hinit. split; [done|].
  intros m <-.
  assert (make_start_config host m = (Ret tt, m)) as Hseed.
  { rewrite make_start_config_run, start_config_idle; auto. }
  assert (do_enable host m = register_runner host m) as Hen.
  { unfold do_enable. by rewrite (bind_ret _ _ _ _ _ Hseed). }
  split_and!; [done..|]. by rewrite Hen, register_runner_run.
Qed.

(** ** The theorems at work on the sample host *)

Lemma sample_host_succeeds status : succeeds (sample_host status).
Proof.
  intros cmd env files [a Ha]. cbn [run_command sample_host].
  by rewrite Ha.
Qed.

Lemma sample_service_running r files :
  service_running (sample_host running) r files files.
Proof. by exists "gitlab-runner: Service is running", "". Qed.

Lemma sample_marker text : is_Some (sample_files text !! RUNNER_ID).
Proof. destruct text; eexists; vm_compute; reflexivity. Qed.

Lemma sample_document text config :
  (list_to_map sample_documents : gmap string (gmap string pyval)) !! text = Some config ->
  document (sample_host running) (sample_files (Some text)) config.
Proof.
  intros H. exists text. split; [|exact H].
  unfold sample_files. rewrite lookup_insert_ne by done. apply lookup_singleton_eq.
Qed.

(** C1 at work: a first registration on the sample host. *)
Lemma act_follows_transition_table_witness :
  let host := sample_host running in
  let r := sample_runner "present" false in
  let files := sample_files None in
  let m1 := (act_observe host (boot r files)).2 in
  (state r = "present" \/ state r = "absent") /\
  act_observe host (boot r files) = (Ret UNREGISTERED, m1) /\
  succeeds host /\
  exists kw m2,
    act host (boot r files) = (Halt (ExitJson kw), m2) /\
    actions (trace m2) = [Register] /\
    kw !! "runner_state" = Some (PStr "Registered").
Proof.
  intros host r files m1.
  assert (act_observe host (boot r files) = (Ret UNREGISTERED, m1)) as Hobs
    by (vm_compute; reflexivity).
  split; [by left|]. split; [exact Hobs|]. split; [apply sample_host_succeeds|].
  destruct (act_follows_transition_table host r files UNREGISTERED m1
              (or_introl eq_refl) Hobs) as (_ & Hexit & _ & Hdone).
  destruct (Hdone (sample_host_succeeds running)) as (kw & m2 & Hact).
  exists kw, m2. split; [exact Hact|]. exact (Hexit kw m2 Hact).
Defined.

(** C2 at work: the same run reports changed with its message. *)
Lemma act_reports_change_witness :
  let host := sample_host running in
  let p := sample_params "present" false in
  let r := sample_runner "present" false in
  let files := sample_files None in
  let kw := match (act host (boot r files)).1 with
            | Halt (ExitJson kw) => kw
            | _ => ∅
            end in
  let m := (act host (boot r files)).2 in
  Runner_init host p = inr r /\
  act host (boot r files) = (Halt (ExitJson kw), m) /\
  exists before after m1,
    act_observe host (boot r files) = (Ret before, m1) /\
    kw !! "runner_state" = Some (PStr (value after)) /\
    kw !! "changed" = Some (PBool (bool_decide (before <> after))) /\
    ((after = before /\ actions (trace m) = [] /\
      kw !! "changed" = Some (PBool false) /\ kw !! "msg" = None) \/
     (exists acts msg,
        (before, after, acts, msg) ∈ transitions /\ actions (trace m) = acts /\
        acts <> [] /\
        kw !! "changed" = Some (PBool true) /\ kw !! "msg" = Some (PStr msg))) /\
    NoDup (snd <$> transitions).
Proof.
  intros host p r files kw m.
  assert (Runner_init host p = inr r) as Hinit by reflexivity.
  assert (act host (boot r files) = (Halt (ExitJson kw), m)) as Hact
    by (vm_compute; reflexivity).
  split; [exact Hinit|]. split; [exact Hact|].
  exact (act_reports_change host p r files kw m Hinit Hact).
Defined.

(** C3 at work: the name on record is [oldhost], the desired one [host1]. *)
Lemma get_state_observation_witness :
  let host := sample_host running in
  let config := doc_of (PStr "oldhost") (PStr "glrt-1") in
  let entry := Some ({[ "name" := PStr "oldhost"; "token" := PStr "glrt-1" ]}
                     : gmap string pyval) in
  let m := boot (sample_runner "absent" false) (sample_files None) in
  first_entry config = Some entry /\
  get_state config m = (Ret REGISTERED, name_noted (PStr "oldhost") m) /\
  warnings (self (name_noted (PStr "oldhost") m)) = [name_mismatch_warning] /\
  unregister_runner host (name_noted (PStr "oldhost") m) =
    (Ret tt,
     after_command host
       [PStr "/usr/bin/gitlab-runner"; PStr "unregister"; PStr "--name"; PStr "oldhost"]
       None (name_noted (PStr "oldhost") m)).
Proof.
  intros host config entry m.
  assert (first_entry config = Some entry) as Hshape by (vm_compute; reflexivity).
  destruct (get_state_observation host config entry m Hshape) as [Hget Hcap].
  split; [exact Hshape|]. split; [exact Hget|].
  destruct (Hcap (PStr "oldhost") eq_refl) as (_ & Hw & _ & Hun).
  split; [exact Hw|].
  exact (Hun eq_refl (name_noted (PStr "oldhost") m) eq_refl).
Defined.

(** C4 at work: the token on record is an older one. *)
Lemma token_mismatch_reregisters_witness :
  let host := sample_host running in
  let p := sample_params "present" false in
  let r := sample_runner "present" false in
  let text := "[[runners]] name = 'host1' token = 'glrt-0'" in
  let files := sample_files (Some text) in
  let config := doc_of (PStr "host1") (PStr "glrt-0") in
  Runner_init host p = inr r /\
  state r = "present" /\
  succeeds host /\
  service_running host r files files /\
  is_Some (files !! RUNNER_ID) /\
  document host files config /\
  first_runner config = Val (PStr "host1", PStr "glrt-0") /\
  PStr "glrt-0" <> PStr (token r) /\
  exists kw m,
    act host (boot r files) = (Halt (ExitJson kw), m) /\
    kw !! "runner_state" = Some (PStr (value REREGISTERED)) /\
    kw !! "changed" = Some (PBool true) /\
    kw !! "warnings" = None /\
    current_name (self m) = None /\
    action_events (trace m) =
      [RunCommand [PStr (bin r); PStr "unregister"; PStr "--name"; PStr (name r)] None;
       RunCommand (register_cmd r) (register_environment host r)].
Proof.
  intros host p r text files config.
  assert (document host files config) as Hdoc
    by (apply sample_document; vm_compute; reflexivity).
  assert (first_runner config = Val (PStr "host1", PStr "glrt-0")) as Hfirst
    by (vm_compute; reflexivity).
  assert (PStr "glrt-0" <> PStr (token r)) as Hne by discriminate.
  split; [reflexivity|]. split; [reflexivity|].
  split; [apply sample_host_succeeds|]. split; [apply sample_service_running|].
  split; [apply sample_marker|]. split; [exact Hdoc|]. split; [exact Hfirst|].
  split; [exact Hne|].
  exact (token_mismatch_reregisters host p r files files config _ _ eq_refl eq_refl
             (sample_host_succeeds running) (sample_service_running r files)
             (sample_marker (Some text)) Hdoc Hfirst Hne).
Defined.

(** C5 at work: same token, another name, nothing to do. *)
Lemma name_mismatch_only_warns_witness :
  let host := sample_host running in
  let p := sample_params "present" false in
  let r := sample_runner "present" false in
  let text := "[[runners]] name = 'oldhost' token = 'glrt-1'" in
  let files := sample_files (Some text) in
  let config := doc_of (PStr "oldhost") (PStr "glrt-1") in
  Runner_init host p = inr r /\
  state r = "present" /\
  recreate r = false /\
  service_running host r files files /\
  is_Some (files !! RUNNER_ID) /\
  document host files config /\
  first_runner config = Val (PStr "oldhost", PStr "glrt-1") /\
  PStr "glrt-1" = PStr (token r) /\
  PStr "oldhost" <> PStr (name r) /\
  exists kw m,
    act host (boot r files) = (Halt (ExitJson kw), m) /\
    kw !! "runner_state" = Some (PStr (value REGISTERED)) /\
    kw !! "warnings" = Some (PList [PStr name_mismatch_warning]) /\
    kw !! "changed" = Some (PBool false) /\
    kw !! "msg" = None /\
    trace m = observation_events r /\
    actions (trace m) = [] /\
    fs m = files.
Proof.
  intros host p r text files config.
  assert (document host files config) as Hdoc
    by (apply sample_document; vm_compute; reflexivity).
  assert (first_runner config = Val (PStr "oldhost", PStr "glrt-1")) as Hfirst
    by (vm_compute; reflexivity).
  assert (PStr "oldhost" <> PStr (name r)) as Hne by discriminate.
  split; [reflexivity|]. split; [reflexivity|]. split; [reflexivity|].
  split; [apply sample_service_running|].
  split; [apply sample_marker|]. split; [exact Hdoc|]. split; [exact Hfirst|].
  split; [reflexivity|]. split; [exact Hne|].
  exact (name_mismatch_only_warns host p r files files config _ _ eq_refl eq_refl
             eq_refl (sample_service_running r files) (sample_marker (Some text))
             Hdoc Hfirst eq_refl Hne).
Defined.

(** C6 at work: the service has stopped. *)
Lemma preflight_checks_witness :
  let host := sample_host stopped in
  let r := sample_runner "present" false in
  let files := sample_files None in
  run_command host (status_cmd r) None files =
    (1, "", "gitlab-runner: Service has stopped", files) /\
  1 <> 0 /\
  re_search "Service has stopped" "gitlab-runner: Service has stopped" = true /\
  act host (boot r files) =
    (Halt (FailJson {[ "msg" := PStr "Service(systemd) not running." ]}),
     {| self := r; fs := files; trace := [RunCommand (status_cmd r) None] |}).
Proof.
  intros host r files.
  assert (run_command host (status_cmd r) None files =
            (1, "", "gitlab-runner: Service has stopped", files)) as Hrun by reflexivity.
  assert (re_search "Service has stopped" "gitlab-runner: Service has stopped" = true)
    as Hstop by (vm_compute; reflexivity).
  split; [exact Hrun|]. split; [discriminate|]. split; [exact Hstop|].
  exact (proj1 (preflight_checks host r files files 1 "" _ Hrun)
           ltac:(discriminate) Hstop).
Defined.

(** C7 at work: a document cut short. *)
Lemma malformed_config_is_fatal_witness :
  let host := sample_host running in
  let r := sample_runner "present" false in
  let text := "[[runners" in
  let files := sample_files (Some text) in
  let m1 := {| self := r; fs := files; trace := observation_events r |} in
  service_running host r files files /\
  is_Some (files !! RUNNER_ID) /\
  files !! RUNNER_CONFIG = Some text /\
  toml_loads host text = None /\
  act_observe host (boot r files) = (Halt (Uncaught TomlDecodeError), m1) /\
  act host (boot r files) = (Halt (Uncaught TomlDecodeError), m1) /\
  actions (trace m1) = [].
Proof.
  intros host r text files m1.
  assert (files !! RUNNER_CONFIG = Some text) as Htext by (vm_compute; reflexivity).
  assert (toml_loads host text = None) as Hload by (vm_compute; reflexivity).
  split; [apply sample_service_running|]. split; [apply sample_marker|].
  split; [exact Htext|]. split; [exact Hload|].
  exact (malformed_config_is_fatal host r files files text
           (sample_service_running r files) (sample_marker (Some text)) Htext Hload).
Defined.

(** C8 at work: a forced reregistration with the default settings. *)
Lemma seeding_precedes_registration_witness :
  let host := sample_host running in
  let r := sample_runner "present" true in
  let files := sample_files (Some "[[runners]] name = 'host1' token = 'glrt-1'") in
  let gp := get_default_globals in
  let o := (act host (boot r files)).1 in
  let m := (act host (boot r files)).2 in
  let register := RunCommand (register_cmd r) (register_environment host r) in
  let unregister n :=
    RunCommand [PStr (bin r); PStr "unregister"; PStr "--name"; n] None in
  global_params r = Some gp /\
  gp <> ∅ /\
  act host (boot r files) = (o, m) /\
  trace m = observation_events r ++
            unregister (PStr "host1") :: seed_events host gp files ++ [register] /\
  exists k body,
    trace m = take k (observation_events r) ++ body /\
    (body = [] \/
     (exists n, body = [unregister n]) \/
     (exists d, body = seed_events host gp d ++ [register]) \/
     (exists n d, body = unregister n :: seed_events host gp d ++ [register])).
Proof.
  intros host r files gp o m register unregister.
  assert (gp <> ∅) as Hne.
  { intros H. apply (f_equal (lookup "concurrent")) in H. vm_compute in H. discriminate H. }
  assert (act host (boot r files) = (o, m)) as Hact by (vm_compute; reflexivity).
  split; [reflexivity|]. split; [exact Hne|]. split; [exact Hact|].
  split; [vm_compute; reflexivity|].
  exact (seeding_precedes_registration host r files gp o m eq_refl Hne Hact).
Defined.

(** C9 at work: the plain registration task gives no settings. *)
Lemma default_globals_applied_witness :
  let host := sample_host running in
  let a := sample_args in
  let p := sample_params "present" false in
  let r := sample_runner "present" false in
  args.global_params a = None /\
  setup_module_object a = Some p /\
  Runner_init host p = inr r /\
  exists gp,
    params.global_params p = Some gp /\
    global_params r = Some gp /\
    gp !! "concurrent" = Some (PInt 1) /\
    gp !! "check_interval" = Some (PInt 0) /\
    gp !! "connection_max_age" = Some (PStr "15m0s") /\
    gp !! "shutdown_timeout" = Some (PInt 0) /\
    gp !! "session_server" = Some (PDict {[ "session_timeout" := PInt 1800 ]}) /\
    dom gp = {[ "concurrent"; "check_interval"; "connection_max_age";
                "shutdown_timeout"; "session_server" ]} /\
    forall m, self m = r -> make_start_config host m = (Ret tt, after_seed host gp m).
Proof.
  intros host a p r.
  assert (setup_module_object a = Some p) as Hsetup by (vm_compute; reflexivity).
  split; [reflexivity|]. split; [exact Hsetup|]. split; [reflexivity|].
  exact (default_globals_applied host a p r eq_refl Hsetup eq_refl).
Defined.

(** C10 at work: the task gives an empty mapping. *)
Lemma empty_globals_write_nothing_witness :
  let host := sample_host running in
  let a := with_global_params ∅ sample_args in
  let p := bare_params in
  let r := bare_runner in
  args.global_params a = Some ∅ /\
  setup_module_object a = Some p /\
  Runner_init host p = inr r /\
  global_params r = Some ∅ /\
  forall m, self m = r ->
    make_start_config host m = (Ret tt, m) /\
    do_enable host m = register_runner host m /\
    (do_enable host m).2 =
      {| self := r;
         fs := (run_command host (register_cmd r) (register_environment host r) (fs m)).2;
         trace := trace m ++ [RunCommand (register_cmd r) (register_environment host r)] |}.
Proof.
  intros host a p r.
  assert (setup_module_object a = Some p) as Hsetup by (vm_compute; reflexivity).
  split; [reflexivity|]. split; [exact Hsetup|]. split; [reflexivity|].
  exact (empty_globals_write_nothing host a p r eq_refl Hsetup eq_refl).
Defined.

(** ** Where the claims as worded fail *)

(** Evaluate the run in the goal and give its keyword arguments and
    its machine. *)
Ltac run_exists :=
  lazymatch goal with
  | |- exists kw m, ?run = Some (Halt (?how kw), Some m) /\ _ =>
      let v := eval vm_compute in run in
      lazymatch v with
      | Some (Halt (_ ?kw0), Some ?m0) => exists kw0, m0
      end
  end.

(** C3, as worded, fails on a first entry whose name is the empty
    string.  The token matches and the name differs from the desired
    [host1]: the warning is recorded and the empty name is captured, yet
    the unregistration that follows names the desired [host1], not the
    name on record. *)
Lemma empty_name_unregisters_desired_name :
  let host := sample_host running in
  let a := with_state "absent" sample_args in
  let text := "[[runners]] name = '' token = 'glrt-1'" in
  exists kw m,
    run_module host a (sample_files (Some text)) = Some (Halt (ExitJson kw), Some m) /\
    toml_loads host text = Some (doc_of (PStr "") (PStr "glrt-1")) /\
    warnings (self m) = [name_mismatch_warning] /\
    current_name (self m) = Some (PStr "") /\
    action_events (trace m) =
      [RunCommand [PStr "/usr/bin/gitlab-runner"; PStr "unregister"; PStr "--name";
                   PStr "host1"] None] /\
    kw !! "runner_state" = Some (PStr "Unregistered").
Proof.
  intros host a text. run_exists.
  repeat split; vm_compute; reflexivity.
Qed.

(** C4, as worded, fails when the desired target is absent: the token
    on record differs from the desired one, and the run does nothing and
    reports the state Token Mismatch. *)
Lemma token_mismatch_absent_is_noop :
  let host := sample_host running in
  let a := with_state "absent" sample_args in
  let text := "[[runners]] name = 'host1' token = 'glrt-0'" in
  exists kw m,
    run_module host a (sample_files (Some text)) = Some (Halt (ExitJson kw), Some m) /\
    toml_loads host text = Some (doc_of (PStr "host1") (PStr "glrt-0")) /\
    args.token a = Some "glrt-1" /\
    kw !! "runner_state" = Some (PStr "Token Mismatch") /\
    kw !! "changed" = Some (PBool false) /\
    actions (trace m) = [].
Proof.
  intros host a text. run_exists.
  repeat split; vm_compute; reflexivity.
Qed.

(** C5, as worded, fails when the desired target is absent: the token
    matches and the name on record, [oldhost], differs from the desired
    [host1]; the run unregisters [oldhost] and reports Unregistered with
    changed true. *)
Lemma name_mismatch_absent_unregisters :
  let host := sample_host running in
  let a := with_state "absent" sample_args in
  let text := "[[runners]] name = 'oldhost' token = 'glrt-1'" in
  exists kw m,
    run_module host a (sample_files (Some text)) = Some (Halt (ExitJson kw), Some m) /\
    toml_loads host text = Some (doc_of (PStr "oldhost") (PStr "glrt-1")) /\
    args.name a = Some "host1" /\
    args.token a = Some "glrt-1" /\
    kw !! "runner_state" = Some (PStr "Unregistered") /\
    kw !! "changed" = Some (PBool true) /\
    kw !! "warnings" = Some (PList [PStr name_mismatch_warning]) /\
    action_events (trace m) =
      [RunCommand [PStr "/usr/bin/gitlab-runner"; PStr "unregister"; PStr "--name";
                   PStr "oldhost"] None].
Proof.
  intros host a text. run_exists.
  repeat split; vm_compute; reflexivity.
Qed.

(** C6, as worded, fails when the status query exits non-zero saying
    the service has stopped: the run aborts with its own message and
    reports neither stdout nor stderr, though stderr was not empty. *)
Lemma stopped_service_reports_no_output :
  let host := sample_host stopped in
  let r := sample_runner "present" false in
  exists kw m,
    run_module host sample_args (sample_files None) = Some (Halt (FailJson kw), Some m) /\
    run_command host (status_cmd r) None (sample_files None) =
      (1, "", "gitlab-runner: Service has stopped", sample_files None) /\
    kw !! "msg" = Some (PStr "Service(systemd) not running.") /\
    kw !! "stdout" = None /\
    kw !! "stderr" = None /\
    trace m = [RunCommand (status_cmd r) None].
Proof.
  intros host r. run_exists.
  repeat split; vm_compute; reflexivity.
Qed.

(** C8, as worded, fails when the task gives an empty global-settings
    mapping: the run registers, and no seeding event precedes the
    registration; the configuration document is not created. *)
Lemma empty_globals_register_unseeded :
  let host := sample_host running in
  let a := with_global_params ∅ sample_args in
  let r := bare_runner in
  exists kw m,
    run_module host a (sample_files None) = Some (Halt (ExitJson kw), Some m) /\
    kw !! "runner_state" = Some (PStr "Registered") /\
    trace m = [RunCommand (status_cmd r) None; OsStat RUNNER_ID; OsStat RUNNER_CONFIG;
               RunCommand (register_cmd r) None] /\
    fs m !! RUNNER_CONFIG = None.
Proof.
  intros host a r. run_exists.
  repeat split; vm_compute; reflexivity.
Qed.

(** * More of the module *)

(** ** The status check *)

Lemma prefix_occurs pat s :
  String.prefix pat s = true <-> exists post, s = pat +:+ post.
Proof.
  revert s. induction pat as [|c pat IH]; intros s.
  - split; [intros _; by exists s|intros _; by destruct s].
  - destruct s as [|d s]; cbn.
    + split; [done|]. by intros [post [=]].
    + destruct (Ascii.ascii_dec c d) as [->|Hne].
      * rewrite IH. split; intros [post Hp]; exists post; [by rewrite Hp|].
        by injection Hp.
      * split; [done|]. intros [post Hp]. by injection Hp.
Qed.

Lemma re_search_occurs pat s : re_search pat s = true <-> occurs_in pat s.
Proof.
  unfold occurs_in. induction s as [|c s IH]; cbn [re_search].
  - rewrite orb_false_r, prefix_occurs. split.
    + intros [post Hp]. by exists "", post.
    + intros ([|d pre] & post & Hp); [by exists post|discriminate Hp].
  - rewrite orb_true_iff, prefix_occurs, IH. split.
    + intros [[post Hp]|(pre & post & Hp)].
      * by exists "", post.
      * exists (String c pre), post. cbn. by rewrite Hp.
    + intros ([|d pre] & post & Hp).
      * left. by exists post.
      * right. cbn in Hp. injection Hp as -> Hp. by exists pre, post.
Qed.

(** X1. [check_service] lets a run go on exactly when the status query
    exits 0 and its stdout contains the words "Service is running";
    what stderr says plays no part then. *)
Theorem check_service_passes_iff (host : Host) (m : Machine) :
  let reply := (run_command host (status_cmd (self m)) None (fs m)).1 in
  (check_service host m).1 = Ret tt <->
  reply.1.1 = 0 /\ occurs_in "Service is running" reply.1.2.
Proof.
  cbv zeta. rewrite check_service_run, <- re_search_occurs.
  destruct (run_command host (status_cmd (self m)) None (fs m)) as [[[rc out] err] fs'].
  cbn [fst snd]. destruct (Z.eqb_spec rc 0) as [->|Hne]; cbn [negb].
  - destruct (re_search "Service is running" out); split; try done. by intros [_ ?].
  - destruct (re_search "Service has stopped" err); split; try done; by intros [? _].
Qed.

(** ** How a run ends *)

Lemma command_failure_msg msg reply : command_failure msg reply !! "msg" = Some (PStr msg).
Proof. unfold command_failure. apply lookup_insert_eq. Qed.

Lemma getitem_str_exn v k e : getitem_str v k = Exc e -> e = KeyError \/ e = TypeError.
Proof.
  destruct v; cbn; try (intros [= <-]; auto).
  destruct (d !! k); intros [= <-]; auto.
Qed.

Lemma getitem_int_exn v i e :
  getitem_int v i = Exc e -> e = IndexError \/ e = KeyError \/ e = TypeError.
Proof.
  destruct v; cbn; try (intros [= <-]; auto).
  - destruct (String.get i s); intros [= <-]; auto.
  - destruct (l !! i); intros [= <-]; auto.
Qed.

(** The lookups of [get_state] raise nothing but the three subscript
    errors. *)
Lemma first_runner_exn config e :
  first_runner config = Exc e -> e = IndexError \/ e = KeyError \/ e = TypeError.
Proof.
  unfold first_runner. cbn.
  destruct (config !! "runners") as [v|]; cbn; [|intros [= <-]; auto].
  destruct (getitem_int v 0) as [x|e0] eqn:H0; cbn.
  2: { intros [= <-]. by eapply getitem_int_exn. }
  destruct (getitem_str x "name") as [n|e1] eqn:H1; cbn.
  2: { intros [= <-]. apply getitem_str_exn in H1. tauto. }
  destruct (getitem_str x "token") as [t|e2] eqn:H2; cbn; [done|].
  intros [= <-]. apply getitem_str_exn in H2. tauto.
Qed.

(** An observation starts with the status query, leaves the files as
    that query left them, and can only stop by [fail_json] with a
    message or on the parser's or a subscript's exception. *)
Lemma act_observe_cases host m o m1 :
  act_observe host m = (o, m1) ->
  (exists k, (1 <= k)%nat /\ trace m1 = trace m ++ take k (observation_events (self m))) /\
  fs m1 = (run_command host (status_cmd (self m)) None (fs m)).2 /\
  match o with
  | Ret _ => True
  | Halt (ExitJson _) => False
  | Halt (FailJson kw) => is_Some (kw !! "msg")
  | Halt (Uncaught e) => e = TomlDecodeError \/ e = TypeError
  end.
Proof.
  unfold act_observe. munfold. rewrite check_service_run. unfold after_command.
  destruct (run_command host (status_cmd (self m)) None (fs m)) as [[[rc out] err] fs'].
  cbn [fst snd].
  set (m0 := {| self := self m; fs := fs';
                trace := trace m ++ [RunCommand (status_cmd (self m)) None] |}).
  assert (forall kw, is_Some (kw !! "msg") -> (Halt (FailJson kw), m0) = (o, m1) ->
    (exists k, (1 <= k)%nat /\ trace m1 = trace m ++ take k (observation_events (self m))) /\
    fs m1 = fs' /\
    match o with
    | Ret _ => True
    | Halt (ExitJson _) => False
    | Halt (FailJson kw) => is_Some (kw !! "msg")
    | Halt (Uncaught e) => e = TomlDecodeError \/ e = TypeError
    end) as Hstop.
  { intros kw Hkw [= <- <-]. split_and!; [by exists 1%nat|done..]. }
  destruct (rc =? 0); cbn [negb].
  2: { destruct (re_search "Service has stopped" err); apply Hstop.
       - by rewrite lookup_singleton_eq.
       - by rewrite command_failure_msg. }
  destruct (re_search "Service is running" out);
    [|apply Hstop; by rewrite command_failure_msg].
  clear Hstop. rewrite verify_config_exists_run. unfold after_event. cbn [fs self trace m0].
  destruct (bool_decide (is_Some (fs' !! RUNNER_ID))).
  2: { intros [= <- <-]. split_and!; [exists 2%nat; split; [lia|]|done|].
       - by rewrite <- app_assoc.
       - by rewrite lookup_singleton_eq. }
  destruct (fs' !! RUNNER_CONFIG) as [text|] eqn:Htext.
  2: { rewrite bool_decide_false by (by intros [? ?]).
       intros [= <- <-]. split_and!; [exists 3%nat; split; [lia|]|done..].
       cbn. by rewrite <- !app_assoc. }
  rewrite bool_decide_true by done.
  rewrite load_config_content_run. unfold after_event. cbn [fs self trace]. rewrite Htext.
  destruct (toml_loads host text) as [config|].
  2: { intros [= <- <-]. split_and!; [exists 4%nat; split; [lia|]|done|by left].
       cbn. by rewrite <- !app_assoc. }
  rewrite get_state_run. cbn [fs self trace].
  assert (forall A (x : A) (tr : list event),
    tr = (((trace m ++ [RunCommand (status_cmd (self m)) None]) ++ [OsStat RUNNER_ID]) ++
          [OsStat RUNNER_CONFIG]) ++ [TomlLoad RUNNER_CONFIG] ->
    exists k, (1 <= k)%nat /\ tr = trace m ++ take k (observation_events (self m))) as Hfull.
  { intros A x tr ->. exists 4%nat. split; [lia|]. cbn. by rewrite <- !app_assoc. }
  destruct (first_runner config) as [[n t]|e] eqn:Hfirst.
  - destruct (ne_str t (token (self m))).
    { intros [= <- <-]. split_and!; [by eapply (Hfull _ tt)|done..]. }
    destruct (ne_str n (name (self m))); intros [= <- <-];
      (split_and!; [by eapply (Hfull _ tt)|done..]).
  - apply first_runner_exn in Hfirst as [->|[->| ->]]; intros [= <- <-];
      (split_and!; [by eapply (Hfull _ tt)|done|]); auto.
Qed.

Lemma perform_halt_msg host a m h m' :
  perform host a m = (Halt h, m') -> exists kw, h = FailJson kw /\ is_Some (kw !! "msg").
Proof.
  destruct a; [rewrite perform_register_run|rewrite perform_unregister_run];
    unfold checked; destruct (_ =? 0); intros [= <- <-];
    eexists; (split; [done|]); by rewrite command_failure_msg.
Qed.

Lemma perform_all_halt_msg host acts m h m' :
  perform_all host acts m = (Halt h, m') ->
  exists kw, h = FailJson kw /\ is_Some (kw !! "msg").
Proof.
  revert m. induction acts as [|a acts IH]; intros m; [done|].
  cbn [perform_all]. munfold.
  destruct (perform host a m) as [[[]|h1] m1] eqn:Ha.
  - apply IH.
  - intros [= <- <-]. by eapply perform_halt_msg.
Qed.


(** ** What a run does, and what it never does *)

Lemma perform_grows host a m o m' :
  perform host a m = (o, m') ->
  exists evs, trace m' = trace m ++ evs /\
    (a = Unregister ->
     Forall (fun e => is_seeding e = false /\ action_of e <> Some Register) evs).
Proof.
  destruct a.
  - rewrite perform_register_run. intros [= <- <-]. unfold after_command, start_config.
    destruct (global_params (self m)) as [gp|]; [destruct (truthy (PDict gp))|];
      cbn [trace after_seed]; eexists; (split; [by rewrite <- ?app_assoc|done]).
  - rewrite perform_unregister_run. intros [= <- <-]. unfold after_command.
    cbn [trace]. eexists. split; [done|]. intros _.
    apply Forall_singleton. by rewrite action_of_unregister.
Qed.

Lemma perform_all_grows host acts m o m' :
  perform_all host acts m = (o, m') -> exists evs, trace m' = trace m ++ evs.
Proof.
  revert m. induction acts as [|a acts IH]; intros m.
  - cbn. munfold. intros [= <- <-]. exists []. by rewrite app_nil_r.
  - cbn [perform_all]. munfold.
    destruct (perform host a m) as [[[]|h1] m1] eqn:Ha;
      apply perform_grows in Ha as (evs & Ha & _).
    + intros H. apply IH in H as (evs' & H). exists (evs ++ evs').
      by rewrite H, Ha, <- app_assoc.
    + intros [= <- <-]. by exists evs.
Qed.

Lemma fired_actions r before acts after msg :
  fired r before = Some (acts, after, msg) ->
  acts = [Register] \/ acts = [Unregister; Register] \/ acts = [Unregister].
Proof.
  intros H. apply fired_transitions in H. unfold transitions in H.
  rewrite !elem_of_cons, elem_of_nil in H.
  destruct H as [H|[H|[H|[H|[]]]]]; injection H as _ _ <- _; auto.
Qed.

(** The machine [act] leaves: the one after the observation, then after
    the actions that were performed, then with the results filled in. *)
Lemma act_machine host m :
  exists o m1 acts performed m2,
    act_observe host m = (o, m1) /\
    (performed = acts \/ performed `prefix_of` acts) /\
    (acts = [] \/ acts = [Register] \/ acts = [Unregister; Register] \/
     acts = [Unregister]) /\
    (state (self m) <> "present" -> acts = [] \/ acts = [Unregister]) /\
    self m2 = self m1 /\
    actions (trace m2) = actions (trace m1) ++ performed /\
    (exists evs, trace m2 = trace m1 ++ evs /\
       (acts = [] \/ acts = [Unregister] ->
        Forall (fun e => is_seeding e = false /\ action_of e <> Some Register) evs)) /\
    trace (act host m).2 = trace m2 /\
    fs (act host m).2 = fs m2 /\
    params_of (self (act host m).2) = params_of (self m2) /\
    bin (self (act host m).2) = bin (self m2).
Proof.
  destruct (act_observe host m) as [[before|h] m1] eqn:Hobs.
  2: { rewrite (act_halts_with_observe _ _ _ _ Hobs).
       exists (Halt h), m1, [], [], m1. rewrite app_nil_r.
       split_and!; auto. exists []. by rewrite app_nil_r. }
  rewrite (act_after_observe _ _ _ _ Hobs).
  assert (state (self m1) = state (self m)) as Hstate.
  { apply act_observe_inv in Hobs as (_ & [->|[n ->]] & _); done. }
  destruct (fired (self m1) before) as [[[acts after] msg]|] eqn:Hf.
  2: { rewrite act_report_run. exists (Ret before), m1, [], [], m1. rewrite app_nil_r.
       split_and!; auto. exists []. by rewrite app_nil_r. }
  destruct (perform_all host acts m1) as [o2 m2] eqn:Hp.
  pose proof (perform_all_inv host _ _ _ _ Hp) as (Hs & performed & Hacts & Hend).
  exists (Ret before), m1, acts, performed, m2.
  assert (state (self m) <> "present" -> acts = [] \/ acts = [Unregister]) as Habsent.
  { intros Hne. unfold fired in Hf. rewrite Hstate in Hf.
    destruct (String.eqb_spec (state (self m)) "present"); [done|].
    destruct (String.eqb (state (self m)) "absent"); [|done].
    destruct before; try done. injection Hf as <- _ _. auto. }
  assert (exists evs, trace m2 = trace m1 ++ evs /\
            (acts = [] \/ acts = [Unregister] ->
             Forall (fun e => is_seeding e = false /\ action_of e <> Some Register) evs))
    as Hevs.
  { destruct (fired_actions _ _ _ _ _ Hf) as [->|[->| ->]].
    - destruct (perform_all_grows _ _ _ _ _ Hp) as [evs Hevs]. exists evs.
      split; [done|]. by intros [|].
    - destruct (perform_all_grows _ _ _ _ _ Hp) as [evs Hevs]. exists evs.
      split; [done|]. by intros [|].
    - cbn [perform_all] in Hp. munfold.
      destruct (perform host Unregister m1) as [o3 m3] eqn:H3.
      apply perform_grows in H3 as (evs & H3 & Hall). exists evs.
      assert (m2 = m3) as -> by (destruct o3 as [[]|]; by injection Hp).
      split; [done|]. intros _. by apply Hall. }
  split; [done|]. split; [destruct Hend as [[_ ->]|[_ ?]]; auto|].
  split; [destruct (fired_actions _ _ _ _ _ Hf) as [->|[->| ->]]; auto|].
  split; [done|]. split; [done|]. split; [done|]. split; [done|].
  destruct Hend as [[-> _]|[[kw ->] _]]; [|done].
  rewrite act_report_run. done.
Qed.

Lemma prefix_of_fired (performed acts : list action) :
  performed = acts \/ performed `prefix_of` acts ->
  acts = [] \/ acts = [Register] \/ acts = [Unregister; Register] \/ acts = [Unregister] ->
  performed = [] \/ performed = [Unregister] \/ performed = [Register] \/
  performed = [Unregister; Register].
Proof.
  intros [->|[k Hk]] Hacts; [tauto|].
  destruct Hacts as [->|[->|[->| ->]]];
    destruct performed as [|a [|b [|c l]]]; simplify_eq/=; auto.
Qed.

(** X3. Whatever the binary answers and whatever the desired target
    says, a run begins with the status query and performs at most one
    unregistration and at most one registration, the unregistration
    first. *)
Theorem act_one_action_of_each (host : Host) (m : Machine) :
  (exists rest,
     trace (act host m).2 = trace m ++ RunCommand (status_cmd (self m)) None :: rest) /\
  (exists acts,
     actions (trace (act host m).2) = actions (trace m) ++ acts /\
     (acts = [] \/ acts = [Unregister] \/ acts = [Register] \/
      acts = [Unregister; Register])).
Proof.
  destruct (act_machine host m)
    as (o & m1 & acts & performed & m2 & Hobs & Hpre & Hacts & _ & _ & Hperf &
        (evs & Hevs & _) & -> & _).
  apply act_observe_cases in Hobs as ((k & Hk & Htr) & _).
  split.
  - rewrite Hevs, Htr. destruct k as [|k]; [lia|]. cbn [take observation_events].
    rewrite <- app_assoc. cbn [app]. eauto.
  - exists performed. split; [|by eapply prefix_of_fired].
    rewrite Hperf, Htr. unfold actions at 1. rewrite omap_app.
    fold (actions (trace m)). fold (actions (take k (observation_events (self m)))).
    by rewrite actions_observation, app_nil_r.
Qed.

(** X4. When the desired target is not present, a run never registers
    and never seeds: past what the machine already recorded, no event is
    a temporary file, a dump, a move or a register command. *)
Theorem no_registration_unless_present (host : Host) (m : Machine) :
  state (self m) <> "present" ->
  exists evs,
    trace (act host m).2 = trace m ++ evs /\
    Forall (fun e => is_seeding e = false /\ action_of e <> Some Register) evs.
Proof.
  intros Hne.
  destruct (act_machine host m)
    as (o & m1 & acts & performed & m2 & Hobs & _ & _ & Habsent & _ & _ &
        (evs & Hevs & Hall) & -> & _).
  apply act_observe_cases in Hobs as ((k & _ & Htr) & _).
  exists (take k (observation_events (self m)) ++ evs).
  split; [by rewrite Hevs, Htr, <- app_assoc|].
  apply Forall_app. split; [|by apply Hall, Habsent].
  apply Forall_take. repeat constructor; done.
Qed.

(** X5. The desired spec is never mutated: through any run, however it
    ends, the object keeps the parameters and the binary path it started
    with. *)
Theorem act_keeps_parameters (host : Host) (m : Machine) :
  params_of (self (act host m).2) = params_of (self m) /\
  bin (self (act host m).2) = bin (self m).
Proof.
  destruct (act_machine host m)
    as (o & m1 & acts & performed & m2 & Hobs & _ & _ & _ & Hs & _ & _ & _ & _ &
        -> & ->).
  rewrite Hs. by apply act_observe_inv in Hobs as (_ & [->|[n ->]] & _).
Qed.

Lemma no_registration_unless_present_witness :
  let host := sample_host running in
  let r := sample_runner "absent" false in
  let m := boot r (sample_files (Some "[[runners]] name = 'host1' token = 'glrt-1'")) in
  state (self m) <> "present" /\
  exists evs,
    trace (act host m).2 = trace m ++ evs /\
    Forall (fun e => is_seeding e = false /\ action_of e <> Some Register) evs.
Proof.
  intros host r m.
  assert (state (self m) <> "present") as Hne by discriminate.
  split; [exact Hne|]. exact (no_registration_unless_present host m Hne).
Defined.

(** ** What a run reports *)

(** The keyword arguments of an exit are the report on the object as
    the observation and the transition left it. *)
Lemma act_exit_report host m kw m' :
  command_results (self m) = ∅ ->
  act host m = (Halt (ExitJson kw), m') ->
  exists before after r',
    kw = report before after r' /\
    current_name r' = current_name (self m') /\
    (command_results r' = ∅ \/ exists msg, command_results r' = {[ "msg" := PStr msg ]}) /\
    (warnings r' = warnings (self m) /\ current_name r' = current_name (self m) \/
     exists n, warnings r' = warnings (self m) ++ [name_mismatch_warning] /\
               current_name r' = Some n).
Proof.
  intros Hres Hact.
  destruct (act_observe host m) as [[before|h] m1] eqn:Hobs.
  2: { rewrite (act_halts_with_observe _ _ _ _ Hobs) in Hact. injection Hact as -> _.
       by apply act_observe_inv in Hobs as (_ & _ & ?). }
  rewrite (act_after_observe _ _ _ _ Hobs) in Hact.
  apply act_observe_inv in Hobs as (_ & Hself & _).
  assert (command_results (self m1) = ∅ /\
    (warnings (self m1) = warnings (self m) /\ current_name (self m1) = current_name (self m) \/
     exists n, warnings (self m1) = warnings (self m) ++ [name_mismatch_warning] /\
               current_name (self m1) = Some n)) as [Hres1 Hnote].
  { destruct Hself as [->|[n ->]]; [auto|]. split; [done|]. right. by exists n. }
  destruct (fired (self m1) before) as [[[acts after] msg]|].
  - destruct (perform_all host acts m1) as [[[]|h] m2] eqn:Hp.
    2: { injection Hact as -> _. by apply perform_all_halt_msg in Hp as (? & [=] & _). }
    apply perform_all_inv in Hp as (Hs & _).
    rewrite act_report_run in Hact. injection Hact as <- <-.
    eexists before, (Some after), _. split; [reflexivity|].
    cbn [after_result self current_name warnings command_results set_command_results].
    rewrite Hs, Hres1, insert_empty. split; [done|]. split; [eauto|]. done.
  - rewrite act_report_run in Hact. injection Hact as <- <-.
    eexists before, None, _. split; [reflexivity|].
    split; [done|]. split; [by left|]. done.
Qed.

(** X6. An exit always reports [runner_state] and [changed], as the
    module documents, and reports nothing beyond those two, [msg] and
    [warnings]: no parameter of the task, the token least of all, goes
    into the result. *)
Theorem exit_reports_documented_keys (host : Host) (m m' : Machine)
    (kw : gmap string pyval) :
  command_results (self m) = ∅ ->
  act host m = (Halt (ExitJson kw), m') ->
  (exists s, kw !! "runner_state" = Some (PStr (value s))) /\
  (exists b, kw !! "changed" = Some (PBool b)) /\
  dom kw ⊆ ({[ "changed"; "runner_state"; "msg"; "warnings" ]} : gset string).
Proof.
  intros Hres Hact.
  destruct (act_exit_report host m kw m' Hres Hact)
    as (before & after & r' & -> & _ & Hcr & _).
  split; [rewrite report_runner_state; eauto|].
  split; [rewrite report_changed; eauto|].
  unfold report. rewrite dom_insert.
  assert (dom (command_results r') ⊆ ({[ "msg" ]} : gset string)) as Hdom.
  { destruct Hcr as [->|[msg ->]]; [by rewrite dom_empty|by rewrite dom_singleton]. }
  intros k. rewrite elem_of_union, elem_of_singleton.
  assert (forall d : gmap string pyval, k ∈ dom d -> dom d ⊆ ({[ "msg" ]} : gset string) ->
            k = "msg") as Hmsg.
  { intros d Hk Hd. apply Hd in Hk. by apply elem_of_singleton in Hk. }
  rewrite !elem_of_union, !elem_of_singleton.
  destruct (warnings r').
  - rewrite dom_insert, elem_of_union, elem_of_singleton.
    intros [->|[->|Hk]]; eauto 6.
  - rewrite !dom_insert, !elem_of_union, !elem_of_singleton.
    intros [->|[->|[->|Hk]]]; eauto 6.
Qed.

(** X7. On a freshly built object, an exit carries a [warnings] list
    exactly when the observation captured a name, and the list is then
    the one name-mismatch advisory. *)
Theorem warnings_iff_name_captured (host : Host) (m m' : Machine)
    (kw : gmap string pyval) :
  command_results (self m) = ∅ ->
  warnings (self m) = [] ->
  current_name (self m) = None ->
  act host m = (Halt (ExitJson kw), m') ->
  (current_name (self m') = None /\ kw !! "warnings" = None) \/
  (exists n, current_name (self m') = Some n /\
             kw !! "warnings" = Some (PList [PStr name_mismatch_warning])).
Proof.
  intros Hres Hw Hc Hact.
  destruct (act_exit_report host m kw m' Hres Hact)
    as (before & after & r' & -> & <- & Hcr & Hnote).
  rewrite report_warnings.
  destruct Hnote as [[-> ->]|(n & -> & ->)]; rewrite Hw.
  - left. split; [done|]. by destruct Hcr as [->|[msg ->]].
  - right. by exists n.
Qed.

Lemma exit_reports_documented_keys_witness :
  let host := sample_host running in
  let m := boot (sample_runner "present" false) (sample_files None) in
  let kw := match (act host m).1 with Halt (ExitJson kw) => kw | _ => ∅ end in
  let m' := (act host m).2 in
  command_results (self m) = ∅ /\
  act host m = (Halt (ExitJson kw), m') /\
  (exists s, kw !! "runner_state" = Some (PStr (value s))) /\
  (exists b, kw !! "changed" = Some (PBool b)) /\
  dom kw ⊆ ({[ "changed"; "runner_state"; "msg"; "warnings" ]} : gset string).
Proof.
  intros host m kw m'.
  assert (act host m = (Halt (ExitJson kw), m')) as Hact by (vm_compute; reflexivity).
  split; [reflexivity|]. split; [exact Hact|].
  exact (exit_reports_documented_keys host m m' kw eq_refl Hact).
Defined.

Lemma warnings_iff_name_captured_witness :
  let host := sample_host running in
  let m := boot (sample_runner "present" false)
             (sample_files (Some "[[runners]] name = 'oldhost' token = 'glrt-1'")) in
  let kw := match (act host m).1 with Halt (ExitJson kw) => kw | _ => ∅ end in
  let m' := (act host m).2 in
  command_results (self m) = ∅ /\
  warnings (self m) = [] /\
  current_name (self m) = None /\
  act host m = (Halt (ExitJson kw), m') /\
  ((current_name (self m') = None /\ kw !! "warnings" = None) \/
   (exists n, current_name (self m') = Some n /\
              kw !! "warnings" = Some (PList [PStr name_mismatch_warning]))).
Proof.
  intros host m kw m'.
  assert (act host m = (Halt (ExitJson kw), m')) as Hact by (vm_compute; reflexivity).
  split; [reflexivity|]. split; [reflexivity|]. split; [reflexivity|].
  split; [exact Hact|].
  exact (warnings_iff_name_captured host m m' kw eq_refl eq_refl eq_refl Hact).
Defined.

(** ** Documents of another shape *)

Lemma first_runner_unusable config :
  if unusable_runners config then first_runner config = Exc TypeError
  else first_runner config <> Exc TypeError.
Proof.
  unfold unusable_runners, first_runner. cbn.
  destruct (config !! "runners") as [v|]; cbn; [|done].
  destruct v as [s|z|f|b|iso|l|d]; cbn; try done.
  - destruct s as [|c s]; cbn; done.
  - destruct l as [|x l]; cbn; [done|].
    destruct x as [s|z|f|b|iso|l'|d]; cbn; try done.
    destruct (d !! "name"); cbn; [|done]. by destruct (d !! "token").
Qed.

(** X8. [get_state] raises exactly on the documents whose [runners]
    value cannot be read as a list of tables (a number, a boolean, a
    date-time, a non-empty string, an array starting with something
    else than a table), and what it raises is [TypeError]; on every
    other document, an inline table or an empty string for [runners]
    included, it returns one of the three observable states and touches
    neither the files nor the trace. *)
Theorem get_state_raises_iff (config : gmap string pyval) (m : Machine) :
  if unusable_runners config then
    get_state config m = (Halt (Uncaught TypeError), m)
  else
    exists s m',
      get_state config m = (Ret s, m') /\
      (s = UNREGISTERED \/ s = TOKEN_MISMATCH \/ s = REGISTERED) /\
      fs m' = fs m /\ trace m' = trace m.
Proof.
  pose proof (first_runner_unusable config) as Hshape. rewrite get_state_run.
  destruct (unusable_runners config); [by rewrite Hshape|].
  destruct (first_runner config) as [[n t]|e] eqn:Hfirst.
  - destruct (ne_str t (token (self m))); [eauto 10|].
    destruct (ne_str n (name (self m))); eauto 10.
  - apply first_runner_exn in Hfirst as [->|[->| ->]]; [eauto 10..|done].
Qed.

(** ** Seeding and the files *)

(** X9. A seeding with a non-empty mapping replaces the configuration
    document wholesale by the serialized settings, leaves no temporary
    file behind, and touches no other file and nothing of the object. *)
Theorem seeding_overwrites_document (host : Host) (gp : gmap string pyval)
    (m : Machine) :
  global_params (self m) = Some gp ->
  gp <> ∅ ->
  make_start_config host m = (Ret tt, (make_start_config host m).2) /\
  fs (make_start_config host m).2 !! RUNNER_CONFIG = Some (toml_dumps host gp) /\
  (mkstemp host (tmpdir host) (fs m) <> RUNNER_CONFIG ->
   fs (make_start_config host m).2 !! mkstemp host (tmpdir host) (fs m) = None) /\
  (forall path,
     path <> RUNNER_CONFIG -> path <> mkstemp host (tmpdir host) (fs m) ->
     fs (make_start_config host m).2 !! path = fs m !! path) /\
  self (make_start_config host m).2 = self m.
Proof.
  intros Hgp Hne. rewrite make_start_config_run, (start_config_seeds host gp m Hgp Hne).
  cbn [snd after_seed fs self]. unfold seeded. split_and!; [done| | | |done].
  - apply lookup_insert_eq.
  - intros Htmp. rewrite lookup_insert_ne by done. apply lookup_delete_eq.
  - intros path Hc Ht. rewrite lookup_insert_ne by done. by rewrite lookup_delete_ne.
Qed.

(** X10. When the TOML library reads back what it wrote, the document
    after a seeding holds the settings and nothing else: every agent
    entry it had is gone, so an observation on it finds no agent unless
    the settings themselves bring a [runners] key. *)
Theorem seeded_document_reads_back (host : Host) (gp : gmap string pyval)
    (m : Machine) :
  global_params (self m) = Some gp ->
  gp <> ∅ ->
  toml_loads host (toml_dumps host gp) = Some gp ->
  (exists m', (make_start_config host ≫= fun _ => load_config_content host) m
              = (Ret gp, m')) /\
  (gp !! "runners" = None ->
   exists m',
     (make_start_config host ≫= fun _ => load_config_content host ≫= get_state) m
     = (Ret UNREGISTERED, m')).
Proof.
  intros Hgp Hne Hback.
  assert (load_config_content host (after_seed host gp m) =
            (Ret gp, after_event (TomlLoad RUNNER_CONFIG) (after_seed host gp m))) as Hload.
  { rewrite load_config_content_run. cbn [after_seed fs]. unfold seeded.
    by rewrite lookup_insert_eq, Hback. }
  split.
  - munfold. rewrite make_start_config_run, (start_config_seeds host gp m Hgp Hne), Hload.
    eauto.
  - intros Hnone. munfold.
    rewrite make_start_config_run, (start_config_seeds host gp m Hgp Hne), Hload.
    rewrite get_state_run. unfold first_runner. cbn. rewrite Hnone. cbn. eauto.
Qed.

(** ** Actions that fail *)

(** X11. There is no rollback: when the binary refuses a first
    registration, the run ends in [fail_json] with the binary's stdout
    and stderr, after the seeding has already replaced the
    configuration document; the files are the seeded ones as the binary
    left them. *)
Theorem failed_registration_keeps_seed (host : Host) (r : Runner)
    (files : gmap string string) (m1 : Machine) (gp : gmap string pyval) :
  act_observe host (boot r files) = (Ret UNREGISTERED, m1) ->
  state r = "present" ->
  global_params r = Some gp ->
  gp <> ∅ ->
  (run_command host (register_cmd r) (register_environment host r)
     (seeded host gp (fs m1))).1.1.1 <> 0 ->
  exists m',
    act host (boot r files) =
      (Halt (FailJson (command_failure "Error while registering runner"
         (run_command host (register_cmd r) (register_environment host r)
            (seeded host gp (fs m1))).1)), m') /\
    fs m' = (run_command host (register_cmd r) (register_environment host r)
               (seeded host gp (fs m1))).2 /\
    trace m' = trace m1 ++ seed_events host gp (fs m1) ++
               [RunCommand (register_cmd r) (register_environment host r)].
Proof.
  intros Hobs Hstate Hgp Hne Hrc.
  rewrite (act_after_observe _ _ _ _ Hobs).
  apply act_observe_inv in Hobs as (_ & Hself & _). cbn [boot self] in Hself.
  assert (fired (self m1) UNREGISTERED = fired r UNREGISTERED /\
          global_params (self m1) = Some gp /\
          register_cmd (self m1) = register_cmd r /\
          register_environment host (self m1) = register_environment host r)
    as (-> & Hgp1 & Hcmd & Henv).
  { by destruct Hself as [->|[n ->]]. }
  unfold fired. rewrite Hstate. cbn [String.eqb Ascii.eqb Bool.eqb].
  cbn [perform_all]. munfold. rewrite perform_register_run.
  rewrite (start_config_seeds host gp m1 Hgp1 Hne), Hcmd, Henv. cbn [after_seed fs].
  unfold checked. apply Z.eqb_neq in Hrc. rewrite Hrc.
  eexists. split; [reflexivity|]. cbn [after_command after_seed fs trace].
  split; [done|]. by rewrite <- app_assoc.
Qed.

(** X12. When the binary refuses an unregistration, the run stops
    there: it ends in [fail_json] with the binary's stdout and stderr,
    and on the reregistration paths neither the seeding nor the
    registration is attempted. *)
Theorem failed_unregistration_stops (host : Host) (r : Runner)
    (files : gmap string string) (before : RunnerState) (m1 : Machine) :
  act_observe host (boot r files) = (Ret before, m1) ->
  (state r = "present" /\ (before = TOKEN_MISMATCH \/ before = REGISTERED /\ recreate r = true))
  \/ (state r = "absent" /\ before = REGISTERED) ->
  (run_command host (unregister_cmd (self m1)) None (fs m1)).1.1.1 <> 0 ->
  act host (boot r files) =
    (Halt (FailJson (command_failure "Error while unregistering runner"
       (run_command host (unregister_cmd (self m1)) None (fs m1)).1)),
     after_command host (unregister_cmd (self m1)) None m1) /\
  actions (trace (after_command host (unregister_cmd (self m1)) None m1)) = [Unregister].
Proof.
  intros Hobs Hpath Hrc.
  rewrite (act_after_observe _ _ _ _ Hobs).
  pose proof (act_observe_inv _ _ _ _ Hobs) as ((k & Htr) & Hself & _).
  cbn [boot self trace app] in Hself, Htr.
  rewrite (fired_observed r (self m1) before Hself).
  apply Z.eqb_neq in Hrc.
  assert (actions (trace (after_command host (unregister_cmd (self m1)) None m1))
          = [Unregister]) as Hacts.
  { unfold after_command. cbn [trace]. rewrite actions_snoc, action_of_unregister, Htr.
    by rewrite actions_observation. }
  split; [|exact Hacts].
  unfold fired.
  destruct Hpath as [[-> [->|[-> ->]]]|[-> ->]]; cbn [String.eqb Ascii.eqb Bool.eqb];
    cbn [perform_all]; munfold; rewrite perform_unregister_run; unfold checked;
    by rewrite Hrc.
Qed.

Lemma seeding_overwrites_document_witness :
  let host := sample_host running in
  let gp : gmap string pyval := {[ "concurrent" := PInt 1 ]} in
  let m := boot env_runner (sample_files None) in
  global_params (self m) = Some gp /\
  gp <> ∅ /\
  fs (make_start_config host m).2 !! RUNNER_CONFIG = Some "concurrent = 1" /\
  fs (make_start_config host m).2 !! "/root/.ansible/tmp/tmpq1w2e3" = None.
Proof.
  intros host gp m.
  assert (gp <> ∅) as Hne by apply insert_non_empty.
  destruct (seeding_overwrites_document host gp m eq_refl Hne) as (_ & Hc & Ht & _).
  split; [reflexivity|]. split; [exact Hne|]. split; [exact Hc|].
  apply Ht. discriminate.
Defined.

Lemma seeded_document_reads_back_witness :
  let host := sample_host running in
  let gp : gmap string pyval := {[ "concurrent" := PInt 1 ]} in
  let m := boot env_runner (sample_files (Some "[[runners]] name = 'host1' token = 'glrt-1'")) in
  global_params (self m) = Some gp /\
  gp <> ∅ /\
  toml_loads host (toml_dumps host gp) = Some gp /\
  gp !! "runners" = None /\
  exists m',
    (make_start_config host ≫= fun _ => load_config_content host ≫= get_state) m
    = (Ret UNREGISTERED, m').
Proof.
  intros host gp m.
  assert (gp <> ∅) as Hne by apply insert_non_empty.
  assert (toml_loads host (toml_dumps host gp) = Some gp) as Hback
    by (vm_compute; reflexivity).
  assert (gp !! "runners" = None) as Hnone by (vm_compute; reflexivity).
  split; [reflexivity|]. split; [exact Hne|]. split; [exact Hback|].
  split; [exact Hnone|].
  exact (proj2 (seeded_document_reads_back host gp m eq_refl Hne Hback) Hnone).
Defined.

Lemma failed_registration_keeps_seed_witness :
  let host := refusing_host in
  let r := sample_runner "present" false in
  let files := sample_files None in
  let m1 := (act_observe host (boot r files)).2 in
  let gp := get_default_globals in
  act_observe host (boot r files) = (Ret UNREGISTERED, m1) /\
  state r = "present" /\
  global_params r = Some gp /\
  gp <> ∅ /\
  (run_command host (register_cmd r) (register_environment host r)
     (seeded host gp (fs m1))).1.1.1 <> 0 /\
  exists m',
    act host (boot r files) =
      (Halt (FailJson (command_failure "Error while registering runner"
         (run_command host (register_cmd r) (register_environment host r)
            (seeded host gp (fs m1))).1)), m') /\
    fs m' = (run_command host (register_cmd r) (register_environment host r)
               (seeded host gp (fs m1))).2 /\
    trace m' = trace m1 ++ seed_events host gp (fs m1) ++
               [RunCommand (register_cmd r) (register_environment host r)].
Proof.
  intros host r files m1 gp.
  assert (act_observe host (boot r files) = (Ret UNREGISTERED, m1)) as Hobs
    by (vm_compute; reflexivity).
  assert (gp <> ∅) as Hne by apply insert_non_empty.
  assert ((run_command host (register_cmd r) (register_environment host r)
             (seeded host gp (fs m1))).1.1.1 <> 0) as Hrc by discriminate.
  split; [exact Hobs|]. split; [reflexivity|]. split; [reflexivity|].
  split; [exact Hne|]. split; [exact Hrc|].
  exact (failed_registration_keeps_seed host r files m1 gp Hobs eq_refl eq_refl Hne Hrc).
Defined.

Lemma failed_unregistration_stops_witness :
  let host := refusing_host in
  let r := sample_runner "present" true in
  let files := sample_files (Some "[[runners]] name = 'host1' token = 'glrt-1'") in
  let m1 := (act_observe host (boot r files)).2 in
  act_observe host (boot r files) = (Ret REGISTERED, m1) /\
  state r = "present" /\ recreate r = true /\
  (run_command host (unregister_cmd (self m1)) None (fs m1)).1.1.1 <> 0 /\
  act host (boot r files) =
    (Halt (FailJson (command_failure "Error while unregistering runner"
       (run_command host (unregister_cmd (self m1)) None (fs m1)).1)),
     after_command host (unregister_cmd (self m1)) None m1) /\
  actions (trace (after_command host (unregister_cmd (self m1)) None m1)) = [Unregister].
Proof.
  intros host r files m1.
  assert (act_observe host (boot r files) = (Ret REGISTERED, m1)) as Hobs
    by (vm_compute; reflexivity).
  assert ((run_command host (unregister_cmd (self m1)) None (fs m1)).1.1.1 <> 0) as Hrc
    by discriminate.
  split; [exact Hobs|]. split; [reflexivity|]. split; [reflexivity|]. split; [exact Hrc|].
  exact (failed_unregistration_stops host r files REGISTERED m1 Hobs
           (or_introl (conj eq_refl (or_intror (conj eq_refl eq_refl)))) Hrc).
Defined.

(** ** The registration command *)

(** X13. The registration gets no environment update at all when the
    task gives no environment overrides or an empty mapping; otherwise
    it gets one entry per override, under the same key, with the value
    turned to text. *)
Theorem register_environment_keys (host : Host) (r : Runner) :
  (register_environment host r = None <->
   environ_vars r = None \/ environ_vars r = Some ∅) /\
  (forall ev, environ_vars r = Some ev -> ev <> ∅ ->
     exists env,
       register_environment host r = Some env /\
       dom env = dom ev /\
       forall k, env !! k = to_text host <$> ev !! k).
Proof.
  unfold register_environment. split.
  - destruct (environ_vars r) as [ev|]; [|split; auto]. cbn.
    destruct (decide (ev = ∅)) as [->|Hne].
    + rewrite bool_decide_true by done. cbn. split; auto.
    + rewrite bool_decide_false by done. cbn. split; [done|]. by intros [|[= ->]].
  - intros ev -> Hne. cbn. rewrite bool_decide_false by done. cbn.
    eexists. split; [reflexivity|]. split; [apply dom_fmap_L|].
    intros k. apply lookup_fmap.
Qed.

Lemma register_environment_keys_witness :
  let host := sample_host running in
  let ev : gmap string pyval :=
    {[ "RUNNER_EXECUTOR" := PStr "docker"; "DOCKER_IMAGE" := PStr "alpine:latest" ]} in
  environ_vars env_runner = Some ev /\
  ev <> ∅ /\
  exists env,
    register_environment host env_runner = Some env /\
    dom env = dom ev /\
    forall k, env !! k = to_text host <$> ev !! k.
Proof.
  intros host ev.
  assert (ev <> ∅) as Hne by apply insert_non_empty.
  split; [reflexivity|]. split; [exact Hne|].
  exact (proj2 (register_environment_keys host env_runner) ev eq_refl Hne).
Defined.

(** X14. The registration command always opens with the same nine
    words, carrying the URL, the token and the desired name, and grows
    by one flag and its value for each of executor, default image and
    template file that is a non-empty string: an empty string adds
    nothing, like a missing one. *)
Theorem register_cmd_shape (r : Runner) :
  take 9 (register_cmd r) =
    [PStr (bin r); PStr "register"; PStr "--non-interactive";
     PStr "--url"; PStr (api_url r); PStr "--token"; PStr (token r);
     PStr "--name"; PStr (name r)] /\
  length (register_cmd r) =
    (9 + 2 * (Nat.b2n (given (executor r)) + Nat.b2n (given (default_image r)) +
              Nat.b2n (given (template_file r))))%nat.
Proof.
  unfold register_cmd, flag_if, given.
  destruct (executor r) as [e|], (default_image r) as [i|], (template_file r) as [t|];
    cbn [truthy];
    repeat match goal with |- context [String.eqb ?s ""] => destruct (String.eqb s "") end;
    done.
Qed.

(** ** The options a task may give *)

Lemma spec_state :
  (list_to_map make_argument_spec : gmap string option_spec) !! "state" =
    Some {| spec_required := false; spec_type := None;
            spec_choices := Some ["present"; "absent"];
            spec_default := Some (PStr "present"); spec_no_log := false |}.
Proof. vm_compute. reflexivity. Qed.

Lemma spec_recreate_default :
  with_default make_argument_spec as_bool "recreate" None = Some false.
Proof. vm_compute. reflexivity. Qed.

Lemma spec_no_default k :
  k = "executor" \/ k = "default_image" \/ k = "environ_vars" \/ k = "template_file" ->
  ((list_to_map make_argument_spec : gmap string option_spec) !! k) ≫= spec_default = None.
Proof. intros [->|[->|[->| ->]]]; vm_compute; reflexivity. Qed.

Lemma with_default_given {A} spec (proj : pyval -> option A) k x :
  with_default spec proj k (Some x) = Some x.
Proof. reflexivity. Qed.

Lemma with_default_none {A} (proj : pyval -> option A) k :
  k = "executor" \/ k = "default_image" \/ k = "environ_vars" \/ k = "template_file" ->
  with_default make_argument_spec proj k None = None.
Proof.
  intros Hk. apply spec_no_default in Hk. unfold with_default.
  destruct ((list_to_map make_argument_spec : gmap string option_spec) !! k) as [e|];
    [|done].
  cbn in *. by rewrite Hk.
Qed.

Lemma check_choices_state s :
  check_choices make_argument_spec "state" s =
    String.eqb s "present" || String.eqb s "absent".
Proof.
  unfold check_choices. rewrite spec_state. cbn.
  by rewrite orb_false_r.
Qed.




(** X16. What the module receives from a task it takes: the desired
    target is present or absent, present when left out; recreate is
    false when left out; the global settings are the defaults when left
    out; every option the task gives arrives as given, and an optional
    one it leaves out arrives as [None]. *)
Theorem setup_module_object_params (a : args.t) (p : params.t) :
  setup_module_object a = Some p ->
  (params.state p = "present" \/ params.state p = "absent") /\
  params.state p = default "present" (args.state a) /\
  params.recreate p = default false (args.recreate a) /\
  params.global_params p = Some (default get_default_globals (args.global_params a)) /\
  args.api_url a = Some (params.api_url p) /\
  args.token a = Some (params.token p) /\
  args.name a = Some (params.name p) /\
  params.executor p = args.executor a /\
  params.default_image p = args.default_image a /\
  params.environ_vars p = args.environ_vars a /\
  params.template_file p = args.template_file a.
Proof.
  unfold setup_module_object. destruct (negb _); [done|].
  destruct (args.api_url a) as [u|]; [|done]. cbn [mbind option_bind].
  destruct (args.state a) as [s|]; cbn [with_default];
    [|rewrite spec_state]; cbn [mbind option_bind spec_default as_str].
  all: destruct (args.token a) as [t|]; [|done]; cbn [mbind option_bind].
  all: destruct (args.name a) as [n|]; [|done]; cbn [mbind option_bind].
  all: destruct (args.recreate a) as [b|];
    [rewrite with_default_given|rewrite spec_recreate_default]; cbn [mbind option_bind].
  all: rewrite check_choices_state.
  all: assert (forall o : option string, forall k,
         k = "executor" \/ k = "default_image" \/ k = "environ_vars" \/ k = "template_file" ->
         with_default make_argument_spec as_str k o = o) as Hstr
    by (intros [x|] k Hk; [done|by apply with_default_none]).
  all: assert (forall o : option (gmap string pyval),
         with_default make_argument_spec as_dict "environ_vars" o = o) as Hdict
    by (intros [x|]; [done|apply with_default_none; auto]).
  all: assert (with_default make_argument_spec as_dict "global_params" (args.global_params a)
               = Some (default get_default_globals (args.global_params a))) as Hgp
    by (destruct (args.global_params a); [done|apply default_global_params]).
  all: try (destruct (String.eqb_spec s "present") as [->|H1];
            [|destruct (String.eqb_spec s "absent") as [->|H2]; [|done]]).
  all: cbn [orb negb]; intros [= <-]; cbn [params.state params.recreate params.global_params
         params.api_url params.token params.name params.executor params.default_image
         params.environ_vars params.template_file default from_option id];
       rewrite ?Hstr, ?Hdict, ?Hgp by auto; split_and!; auto.
Qed.

Lemma setup_module_object_params_witness :
  let a := with_state "absent" sample_args in
  let p := sample_params "absent" false in
  setup_module_object a = Some p /\
  params.state p = "absent" /\
  params.recreate p = false /\
  params.global_params p = Some get_default_globals /\
  params.executor p = Some "docker" /\
  params.template_file p = None.
Proof.
  intros a p.
  assert (setup_module_object a = Some p) as Hsetup by (vm_compute; reflexivity).
  destruct (setup_module_object_params a p Hsetup)
    as (_ & Hs & Hr & Hg & _ & _ & _ & He & _ & _ & Ht).
  split; [exact Hsetup|]. split; [exact Hs|]. split; [exact Hr|]. split; [exact Hg|].
  split; [exact He|]. exact Ht.
Defined.

(** ** The entry point *)

Lemma Runner_init_params host p r : Runner_init host p = inr r -> params_of r = p.
Proof.
  unfold Runner_init. destruct (get_binary host); [done|]. intros [= <-]. by destruct p.
Qed.

Lemma act_never_returns host m : exists h, (act host m).1 = Halt h.
Proof.
  destruct (act_observe host m) as [[before|h] m1] eqn:Hobs.
  - rewrite (act_after_observe _ _ _ _ Hobs).
    destruct (fired (self m1) before) as [[[acts after] msg]|];
      [|rewrite act_report_run; by eexists].
    destruct (perform_all host acts m1) as [[[]|h] m2];
      [rewrite act_report_run|]; by eexists.
  - rewrite (act_halts_with_observe _ _ _ _ Hobs). by eexists.
Qed.

(** X17. [main] always ends the process.  When the TOML library or the
    binary is missing it fails before any object exists, so before
    anything is run; otherwise it runs [act] on a fresh object that
    carries exactly the module parameters, and the first thing done is
    the status query. *)
Theorem main_fails_early_or_acts (host : Host) (p : params.t)
    (files : gmap string string) :
  (exists h, (main host p files).1 = Halt h) /\
  ((main host p files).2 = None <->
   HAS_TOML host = false \/ exists msg, get_bin_path host "gitlab-runner" = inl msg) /\
  (forall m, (main host p files).2 = Some m ->
     params_of (self m) = p /\
     exists rest, trace m = RunCommand (status_cmd (self m)) None :: rest).
Proof.
  unfold main. destruct (HAS_TOML host); cbn [negb].
  2: { split; [by eexists|]. split; [split; auto|done]. }
  destruct (Runner_init host p) as [h|r] eqn:Hinit.
  - unfold Runner_init, get_binary in Hinit.
    destruct (get_bin_path host "gitlab-runner") as [msg|path]; [|done].
    split; [by eexists|]. split; [|done]. split; [eauto|done].
  - pose proof (Runner_init_params host p r Hinit) as Hp.
    unfold Runner_init, get_binary in Hinit.
    destruct (get_bin_path host "gitlab-runner") as [msg|path]; [done|].
    destruct (act_never_returns host (boot r files)) as (h & Hh).
    destruct (act_machine host (boot r files))
      as (o' & m1 & acts & performed & m2 & Hobs & _ & _ & _ & Hs & _ &
          (evs & Hevs & _) & Htr & _ & Hpar & Hbin).
    destruct (act host (boot r files)) as [o m] eqn:Hact.
    cbn [fst snd] in *. split; [eauto|]. split.
    { split; [done|]. by intros [[=]|[msg [=]]]. }
    intros m0 [= <-].
    pose proof (act_observe_cases _ _ _ _ Hobs) as ((k & Hk & Hk') & _).
    apply act_observe_inv in Hobs as (_ & Hself & _).
    cbn [boot self trace app] in Hself, Hk'.
    assert (params_of (self m1) = params_of r /\ bin (self m1) = bin r) as [Hp1 Hb1].
    { by destruct Hself as [->|[n ->]]. }
    split; [by rewrite Hpar, Hs, Hp1|].
    rewrite Htr, Hevs, Hk'. destruct k as [|k]; [lia|].
    cbn [take observation_events app]. unfold status_cmd.
    rewrite Hbin, Hs, Hb1. eauto.
Qed.

(** ** Running twice *)

(** X18. Idempotence.  A first run that finds no configuration document
    registers and reports changed; when the registration has put the
    desired name and token on record, a second run with the same
    parameters on the files the first one left does nothing beyond the
    observation and reports Registered, unchanged. *)
Theorem second_run_changes_nothing (host : Host) (p : params.t) (r : Runner)
    (files files1 files2 : gmap string string) (config : gmap string pyval) :
  Runner_init host p = inr r ->
  state r = "present" ->
  recreate r = false ->
  succeeds host ->
  service_running host r files files1 ->
  is_Some (files1 !! RUNNER_ID) ->
  files1 !! RUNNER_CONFIG = None ->
  service_running host r (fs (act host (boot r files)).2) files2 ->
  is_Some (files2 !! RUNNER_ID) ->
  document host files2 config ->
  first_runner config = Val (PStr (name r), PStr (token r)) ->
  exists kw1 kw2 m2,
    (act host (boot r files)).1 = Halt (ExitJson kw1) /\
    kw1 !! "runner_state" = Some (PStr (value REGISTERED)) /\
    kw1 !! "changed" = Some (PBool true) /\
    actions (trace (act host (boot r files)).2) = [Register] /\
    act host (boot r (fs (act host (boot r files)).2)) = (Halt (ExitJson kw2), m2) /\
    kw2 !! "runner_state" = Some (PStr (value REGISTERED)) /\
    kw2 !! "changed" = Some (PBool false) /\
    kw2 !! "msg" = None /\
    trace m2 = observation_events r /\
    fs m2 = files2.
Proof.
  intros Hinit Hstate Hre Hok Hrun1 Hid1 Hnone Hrun2 Hid2 Hdoc Hfirst.
  apply Runner_init_fresh in Hinit as (Hw & Hc & Hres).
  assert (exists kw1 mA,
    act host (boot r files) = (Halt (ExitJson kw1), mA) /\
    kw1 !! "runner_state" = Some (PStr (value REGISTERED)) /\
    kw1 !! "changed" = Some (PBool true) /\
    actions (trace mA) = [Register]) as (kw1 & mA & Hact1 & Hs1 & Hch1 & Hacts1).
  { pose proof (act_observe_no_config host r files files1 Hrun1 Hid1 Hnone) as Hobs1.
    rewrite (act_after_observe _ _ _ _ Hobs1). cbn [self].
    unfold fired. rewrite Hstate. cbn [String.eqb Ascii.eqb Bool.eqb].
    cbn [perform_all]. munfold. rewrite perform_register_run. unfold checked.
    rewrite Hok by (by rewrite action_of_register).
    cbn [Z.eqb]. rewrite act_report_run. eexists _, _. split; [reflexivity|].
    rewrite report_runner_state, report_changed.
    cbn [default from_option id trace after_result after_command].
    split_and!; try done.
    rewrite actions_snoc, action_of_register, actions_start_config. cbn [trace].
    by rewrite (actions_observation r 3). }
  rewrite Hact1 in *. cbn [fst snd] in *.
  pose proof (act_observe_document host r _ files2 config Hrun2 Hid2 Hdoc) as Hobs2.
  rewrite get_state_run, Hfirst in Hobs2. cbn [self] in Hobs2.
  assert (ne_str (PStr (token r)) (token r) = false) as Ht by (by apply ne_str_false).
  assert (ne_str (PStr (name r)) (name r) = false) as Hn by (by apply ne_str_false).
  rewrite Ht, Hn in Hobs2.
  rewrite (act_after_observe _ _ _ _ Hobs2). cbn [self].
  unfold fired. rewrite Hstate, Hre. cbn [String.eqb Ascii.eqb Bool.eqb].
  rewrite act_report_run.
  eexists kw1, _, _. split; [reflexivity|].
  rewrite report_runner_state, report_changed, report_msg.
  cbn [default from_option id self trace fs command_results]. rewrite Hres.
  split_and!; done.
Qed.

Lemma second_run_changes_nothing_witness :
  let host := writing_host in
  let p := sample_params "present" false in
  let r := sample_runner "present" false in
  let files := sample_files None in
  let files2 := fs (act host (boot r files)).2 in
  let config := doc_of (PStr "host1") (PStr "glrt-1") in
  Runner_init host p = inr r /\
  succeeds host /\
  files !! RUNNER_CONFIG = None /\
  document host files2 config /\
  first_runner config = Val (PStr (name r), PStr (token r)) /\
  exists kw1 kw2 m2,
    (act host (boot r files)).1 = Halt (ExitJson kw1) /\
    kw1 !! "runner_state" = Some (PStr (value REGISTERED)) /\
    kw1 !! "changed" = Some (PBool true) /\
    actions (trace (act host (boot r files)).2) = [Register] /\
    act host (boot r files2) = (Halt (ExitJson kw2), m2) /\
    kw2 !! "runner_state" = Some (PStr (value REGISTERED)) /\
    kw2 !! "changed" = Some (PBool false) /\
    kw2 !! "msg" = None /\
    trace m2 = observation_events r /\
    fs m2 = files2.
Proof.
  intros host p r files files2 config.
  assert (succeeds host) as Hok.
  { intros cmd env d [a Ha]. unfold host, writing_host. cbn [run_command].
    rewrite Ha. by destruct a. }
  assert (forall d, service_running host r d d) as Hrun
    by (intros d; by exists "gitlab-runner: Service is running", "").
  assert (files !! RUNNER_CONFIG = None) as Hnone by (vm_compute; reflexivity).
  assert (files2 !! RUNNER_ID = Some "r_abcdef") as Hmark by (vm_compute; reflexivity).
  assert (is_Some (files2 !! RUNNER_ID)) as Hid2 by (exists "r_abcdef"; exact Hmark).
  assert (document host files2 config) as Hdoc.
  { exists "[[runners]] name = 'host1' token = 'glrt-1'".
    split; vm_compute; reflexivity. }
  assert (first_runner config = Val (PStr (name r), PStr (token r))) as Hfirst
    by (vm_compute; reflexivity).
  split; [reflexivity|]. split; [exact Hok|]. split; [exact Hnone|].
  split; [exact Hdoc|]. split; [exact Hfirst|].
  exact (second_run_changes_nothing host p r files files files2 config eq_refl eq_refl
           eq_refl Hok (Hrun files) (sample_marker None) Hnone (Hrun files2) Hid2
           Hdoc Hfirst).
Defined.

(** ** A forced reregistration under another name *)

(** X19. With desired target present and recreate on, a runner on
    record under the desired token and another (non-empty) name is
    unregistered under the name on record and registered under the
    desired name, in that order; the run reports Reregistered, changed,
    together with the name-mismatch warning. *)
Theorem recreate_unregisters_name_on_record (host : Host) (p : params.t) (r : Runner)
    (files files' : gmap string string) (config : gmap string pyval) (n : pyval) :
  Runner_init host p = inr r ->
  state r = "present" ->
  recreate r = true ->
  succeeds host ->
  service_running host r files files' ->
  is_Some (files' !! RUNNER_ID) ->
  document host files' config ->
  first_runner config = Val (n, PStr (token r)) ->
  n <> PStr (name r) ->
  truthy n = true ->
  exists kw m,
    act host (boot r files) = (Halt (ExitJson kw), m) /\
    kw !! "runner_state" = Some (PStr (value REREGISTERED)) /\
    kw !! "changed" = Some (PBool true) /\
    kw !! "warnings" = Some (PList [PStr name_mismatch_warning]) /\
    action_events (trace m) =
      [RunCommand [PStr (bin r); PStr "unregister"; PStr "--name"; n] None;
       RunCommand (register_cmd r) (register_environment host r)].
Proof.
  intros Hinit Hstate Hre Hok Hrun Hid Hdoc Hfirst Hne Htruthy.
  apply Runner_init_fresh in Hinit as (Hw & Hc & Hres).
  pose proof (act_observe_document host r files files' config Hrun Hid Hdoc) as Hobs.
  rewrite get_state_run, Hfirst in Hobs. cbn [self] in Hobs.
  assert (ne_str (PStr (token r)) (token r) = false) as Ht by (by apply ne_str_false).
  apply ne_str_true in Hne. rewrite Ht, Hne in Hobs.
  rewrite (act_after_observe _ _ _ _ Hobs).
  unfold name_noted. cbn [self].
  unfold fired. cbn [state recreate set_current_name set_warnings].
  rewrite Hstate, Hre. cbn [String.eqb Ascii.eqb Bool.eqb].
  cbn [perform_all]. munfold.
  rewrite perform_unregister_run. unfold checked at 1.
  rewrite Hok by (by rewrite action_of_unregister).
  rewrite perform_register_run. unfold checked at 1.
  rewrite Hok by (by rewrite action_of_register).
  cbn [Z.eqb]. rewrite act_report_run.
  eexists _, _. split; [reflexivity|].
  rewrite report_runner_state, report_changed, report_warnings.
  cbn [default from_option id after_result after_command self trace warnings
       current_name set_command_results command_results].
  rewrite !self_start_config.
  cbn [after_command self warnings set_command_results set_current_name set_warnings].
  rewrite Hw. split_and!; try done.
  rewrite action_events_app, action_events_start_config.
  unfold after_command. cbn [trace self].
  rewrite action_events_app, action_events_observation.
  rewrite (unregister_cmd_captured _ n) by done. reflexivity.
Qed.

Lemma recreate_unregisters_name_on_record_witness :
  let host := sample_host running in
  let p := sample_params "present" true in
  let r := sample_runner "present" true in
  let text := "[[runners]] name = 'oldhost' token = 'glrt-1'" in
  let files := sample_files (Some text) in
  let config := doc_of (PStr "oldhost") (PStr "glrt-1") in
  Runner_init host p = inr r /\
  succeeds host /\
  document host files config /\
  first_runner config = Val (PStr "oldhost", PStr (token r)) /\
  PStr "oldhost" <> PStr (name r) /\
  exists kw m,
    act host (boot r files) = (Halt (ExitJson kw), m) /\
    kw !! "runner_state" = Some (PStr (value REREGISTERED)) /\
    kw !! "changed" = Some (PBool true) /\
    kw !! "warnings" = Some (PList [PStr name_mismatch_warning]) /\
    action_events (trace m) =
      [RunCommand [PStr (bin r); PStr "unregister"; PStr "--name"; PStr "oldhost"] None;
       RunCommand (register_cmd r) (register_environment host r)].
Proof.
  intros host p r text files config.
  assert (document host files config) as Hdoc
    by (apply sample_document; vm_compute; reflexivity).
  assert (first_runner config = Val (PStr "oldhost", PStr (token r))) as Hfirst
    by (vm_compute; reflexivity).
  assert (PStr "oldhost" <> PStr (name r)) as Hne by discriminate.
  split; [reflexivity|]. split; [apply sample_host_succeeds|]. split; [exact Hdoc|].
  split; [exact Hfirst|]. split; [exact Hne|].
  exact (recreate_unregisters_name_on_record host p r files files config _
           eq_refl eq_refl eq_refl (sample_host_succeeds running)
           (sample_service_running r files) (sample_marker (Some text))
           Hdoc Hfirst Hne eq_refl).
Defined.
